(** * ParyavaranSahyog donation backend: a shallow embedding of
      [main.py] and [schemas.py], and the properties of its handlers.

    The document store is modelled as five typed collections, each a list of
    documents in insertion order; handlers are computations in a small
    state-and-exception monad over that store. *)

From stdpp Require Import base list gmap strings fin_maps sorting.
From Stdlib Require Import Ascii ZArith Lia.

Local Open Scope string_scope.
Local Open Scope Z_scope.
Local Open Scope list_scope.

(** ** Identifiers

    A bson [ObjectId] generated by the driver is a 12-byte value; [str(oid)]
    renders it as 24 lowercase hexadecimal digits.  [ObjectId(s)] reads a
    string of 24 characters with [bytes.fromhex], which takes hexadecimal
    digits of either case in pairs and skips ASCII whitespace between the
    pairs: a string of 24 characters with whitespace in it is accepted and
    gives fewer than 12 bytes. *)

Definition ObjectId := N.

Definition datetime := Z.

Definition hex_char (d : N) : ascii :=
  match d with
  | 0%N => "0" | 1%N => "1" | 2%N => "2" | 3%N => "3"
  | 4%N => "4" | 5%N => "5" | 6%N => "6" | 7%N => "7"
  | 8%N => "8" | 9%N => "9" | 10%N => "a" | 11%N => "b"
  | 12%N => "c" | 13%N => "d" | 14%N => "e" | _ => "f"
  end%char.

Definition hex_value (c : ascii) : option N :=
  let n := N_of_ascii c in
  if ((48 <=? n) && (n <=? 57))%N then Some (n - 48)%N
  else if ((97 <=? n) && (n <=? 102))%N then Some (n - 87)%N
  else if ((65 <=? n) && (n <=? 70))%N then Some (n - 55)%N
  else None.

Fixpoint hex_render (digits : nat) (n : N) (acc : string) : string :=
  match digits with
  | O => acc
  | S k => hex_render k (n / 16)%N (String (hex_char (n mod 16)%N) acc)
  end.

(** The number a run of hexadecimal digits denotes. *)
Fixpoint hex_parse (s : string) (acc : N) : option N :=
  match s with
  | EmptyString => Some acc
  | String c rest =>
      match hex_value c with
      | Some d => hex_parse rest (16 * acc + d)%N
      | None => None
      end
  end.

(** [str(oid)] *)
Definition oid_str (oid : ObjectId) : string := hex_render 24 oid "".
Arguments oid_str : simpl never.

(** [Py_ISSPACE]: space, tab, line feed, vertical tab, form feed, carriage
    return. *)
Definition is_space (c : ascii) : bool :=
  let n := N_of_ascii c in
  ((n =? 32) || ((9 <=? n) && (n <=? 13)))%N.

(** [bytes.fromhex(s)]: [None] stands for [ValueError]. *)
Fixpoint fromhex (s : string) : option (list N) :=
  match s with
  | EmptyString => Some []
  | String c rest =>
      if is_space c then fromhex rest
      else
        match hex_value c, rest with
        | Some hi, String c' rest' =>
            match hex_value c' with
            | Some lo => cons (16 * hi + lo)%N <$> fromhex rest'
            | None => None
            end
        | _, _ => None
        end
  end.

(** The number a run of bytes denotes, the first byte weighing most. *)
Definition bytes_value (bs : list N) : N :=
  foldl (fun acc b => (256 * acc + b)%N) 0%N bs.

(** The bytes of [ObjectId(s)] for a string [s]: [None] stands for
    [InvalidId]. *)
Definition ObjectId_read (s : string) : option (list N) :=
  if Nat.eqb (String.length s) 24 then fromhex s else None.

(** The identifier of stored documents that a run of bytes is: the [_id] of
    a document always has 12 bytes, so a shorter run is the [_id] of none. *)
Definition stored_id (bs : list N) : option ObjectId :=
  if Nat.eqb (length bs) 12 then Some (bytes_value bs) else None.

(** The 12-byte identifier [ObjectId(s)] is, if [s] is read and reads as
    one. *)
Definition ObjectId_of (s : string) : option ObjectId :=
  ObjectId_read s ≫= stored_id.

(** [ObjectId.is_valid(s)]: whether [ObjectId(s)] can be built. *)
Definition ObjectId_is_valid (s : string) : bool :=
  match ObjectId_read s with Some _ => true | None => false end.

(** ** Entity schemas ([schemas.py]) *)

Module NGO.
Record t := mk {
  name : string;
  registration_id : string;
  category : string;
  city : option string;
  state : option string;
  verified : bool
}.
End NGO.

Module Campaign.
Record t := mk {
  title : string;
  ngo_id : string;
  domain : string;
  goal_inr : Z;
  raised_inr : Z;
  description : option string;
  city : option string;
  state : option string;
  milestones : option (list string)
}.

(** [goal_inr: Field(..., ge=1)], [raised_inr: Field(default=0, ge=0)] *)
Definition validate (c : t) : bool :=
  (1 <=? goal_inr c) && (0 <=? raised_inr c).

Definition with_raised_inr (v : Z) (c : t) : t :=
  mk (title c) (ngo_id c) (domain c) (goal_inr c) v
     (description c) (city c) (state c) (milestones c).
End Campaign.

Module Donation.
Record t := mk {
  campaign_id : string;
  donor_name : option string;
  amount_inr : Z;
  payment_method : string
}.

(** [amount_inr: Field(..., ge=1)] *)
Definition validate (d : t) : bool := 1 <=? amount_inr d.
End Donation.

Module Transaction.
Record t := mk {
  donation_id : string;
  tx_hash : string;
  status : string
}.
End Transaction.

Module Receipt.
Record t := mk {
  donation_id : string;
  receipt_nft_id : option string;
  issued_at : option datetime
}.
End Receipt.

(** The request body of [POST /api/donations]: no constraint on the amount. *)
Module DonationIn.
Record t := mk {
  campaign_id : string;
  donor_name : option string;
  amount_inr : Z;
  payment_method : string
}.
End DonationIn.

(** ** The document store

    A stored document is the dump of an entity together with the [_id] the
    store gave it, and the [updated_at] stamp that [$set] may add. *)

Record Doc (A : Type) := mkDoc {
  _id : ObjectId;
  fields : A;
  updated_at : option datetime
}.
Arguments mkDoc {A} _ _ _.
Arguments _id {A} _.
Arguments fields {A} _.
Arguments updated_at {A} _.

Record Store := mkStore {
  ngo : list (Doc NGO.t);
  campaign : list (Doc Campaign.t);
  donation : list (Doc Donation.t);
  transaction : list (Doc Transaction.t);
  receipt : list (Doc Receipt.t);
  (** the generator behind [ObjectId()] *)
  next_oid : N
}.

Definition empty_store : Store := mkStore [] [] [] [] [] 0%N.

(** ** Handler computations: state, [HTTPException], uncaught exceptions *)

Inductive Exn :=
| ValidationError (what : string)
| InvalidId (what : string)
| TypeError (what : string).

Inductive Response (A : Type) :=
| Return (a : A)
| HTTPException (status_code : Z) (detail : string)
| Uncaught (e : Exn).
Arguments Return {A} _.
Arguments HTTPException {A} _ _.
Arguments Uncaught {A} _.

Definition M (A : Type) : Type := Store -> Response A * Store.

Definition ret {A} (a : A) : M A := fun s => (Return a, s).

(** Writes made before an exception stay: nothing is rolled back. *)
Definition bind {A B} (c : M A) (k : A -> M B) : M B :=
  fun s =>
    match c s with
    | (Return a, s') => k a s'
    | (HTTPException code d, s') => (HTTPException code d, s')
    | (Uncaught e, s') => (Uncaught e, s')
    end.

Definition raise_http {A} (code : Z) (detail : string) : M A :=
  fun s => (HTTPException code detail, s).

Definition raise {A} (e : Exn) : M A := fun s => (Uncaught e, s).

Definition gets {A} (f : Store -> A) : M A := fun s => (Return (f s), s).

Definition modify (f : Store -> Store) : M unit := fun s => (Return tt, f s).

Notation "'let*' x ':=' c 'in' k" := (bind c (fun x => k))
  (at level 10, x name, c at level 100, k at level 200, only parsing).

(** The status line the caller sees.  An [HTTPException] carries its own
    code; an exception no handler is registered for becomes the generic
    server-error response. *)
Definition status_code_of {A} (r : Response A) : Z :=
  match r with
  | Return _ => 200
  | HTTPException code _ => code
  | Uncaught _ => 500
  end.

Definition is_4xx (code : Z) : bool := (400 <=? code) && (code <? 500).

(** ** Store primitives (pymongo) *)

(** [ObjectId()] *)
Definition ObjectId_new : M ObjectId :=
  fun s =>
    (Return (next_oid s),
     mkStore (ngo s) (campaign s) (donation s) (transaction s) (receipt s)
             (next_oid s + 1)%N).

Definition set_ngo (v : list (Doc NGO.t)) (s : Store) : Store :=
  mkStore v (campaign s) (donation s) (transaction s) (receipt s) (next_oid s).
Definition set_campaign (v : list (Doc Campaign.t)) (s : Store) : Store :=
  mkStore (ngo s) v (donation s) (transaction s) (receipt s) (next_oid s).
Definition set_donation (v : list (Doc Donation.t)) (s : Store) : Store :=
  mkStore (ngo s) (campaign s) v (transaction s) (receipt s) (next_oid s).
Definition set_transaction (v : list (Doc Transaction.t)) (s : Store) : Store :=
  mkStore (ngo s) (campaign s) (donation s) v (receipt s) (next_oid s).
Definition set_receipt (v : list (Doc Receipt.t)) (s : Store) : Store :=
  mkStore (ngo s) (campaign s) (donation s) (transaction s) v (next_oid s).

(** A collection of the store: its name, and how to read and replace it. *)
Class Collection (A : Type) := {
  collection_name : string;
  coll_get : Store -> list (Doc A);
  coll_set : list (Doc A) -> Store -> Store
}.

#[export] Instance ngo_collection : Collection NGO.t :=
  {| collection_name := "ngo"; coll_get := ngo; coll_set := set_ngo |}.
#[export] Instance campaign_collection : Collection Campaign.t :=
  {| collection_name := "campaign"; coll_get := campaign;
     coll_set := set_campaign |}.
#[export] Instance donation_collection : Collection Donation.t :=
  {| collection_name := "donation"; coll_get := donation;
     coll_set := set_donation |}.
#[export] Instance transaction_collection : Collection Transaction.t :=
  {| collection_name := "transaction"; coll_get := transaction;
     coll_set := set_transaction |}.
#[export] Instance receipt_collection : Collection Receipt.t :=
  {| collection_name := "receipt"; coll_get := receipt;
     coll_set := set_receipt |}.

(** [db[c].insert_one(doc)]: the driver draws a fresh [_id], appends the
    document and answers the [_id]. *)
Definition insert_one {A} `{Collection A} (data : A) : M ObjectId :=
  let* oid := ObjectId_new in
  let* _ := modify (fun s => coll_set (coll_get s ++ [mkDoc oid data None])%list s) in
  ret oid.

(** [db[c].find_one({"_id": oid})]: the first document with that [_id]. *)
Definition find_by_id {A} (oid : ObjectId) (docs : list (Doc A))
  : option (Doc A) :=
  List.find (fun x => N.eqb (_id x) oid) docs.
Arguments find_by_id : simpl never.

Definition find_one {A} `{Collection A} (oid : ObjectId) : M (option (Doc A)) :=
  gets (fun s => find_by_id oid (coll_get s)).

(** [db[c].count_documents({})] *)
Definition count_documents {A} `{Collection A} : M nat :=
  gets (fun s => length (coll_get s)).

(** [update_one({"_id": oid}, u)]: [u] is applied to the first document with
    that [_id], if there is one. *)
Fixpoint update_first {A} (oid : ObjectId) (u : Doc A -> Doc A)
  (docs : list (Doc A)) : list (Doc A) :=
  match docs with
  | [] => []
  | x :: rest =>
      if N.eqb (_id x) oid then u x :: rest
      else x :: update_first oid u rest
  end.

Definition update_one {A} `{Collection A} (oid : ObjectId)
  (u : Doc A -> Doc A) : M unit :=
  modify (fun s => coll_set (update_first oid u (coll_get s)) s).

(** [{"$inc": {"raised_inr": amount}, "$set": {"updated_at": now}}] *)
Definition inc_raised_set_updated (amount : Z) (now : datetime)
  (x : Doc Campaign.t) : Doc Campaign.t :=
  mkDoc (_id x)
        (Campaign.with_raised_inr (Campaign.raised_inr (fields x) + amount)
                                  (fields x))
        (Some now).

(** [ObjectId(s)] inside a handler: [InvalidId] is raised for a string that
    is not read as an identifier. *)
Definition ObjectId_from (s : string) : M (list N) :=
  match ObjectId_read s with
  | Some bs => ret bs
  | None => raise (InvalidId s)
  end.

(** [db[c].find_one({"_id": oid})] for an identifier built from a string:
    documents carry 12-byte identifiers, fewer bytes match none. *)
Definition find_one_id {A} `{Collection A} (bs : list N)
  : M (option (Doc A)) :=
  match stored_id bs with
  | Some oid => find_one oid
  | None => ret None
  end.

(** [db[c].update_one({"_id": oid}, u)] for an identifier built from a
    string. *)
Definition update_one_id {A} `{Collection A} (bs : list N)
  (u : Doc A -> Doc A) : M unit :=
  match stored_id bs with
  | Some oid => update_one oid u
  | None => ret tt
  end.

(** ** Record access layer ([database.py]) *)

(** Modelled from the spec: [create_document] of [database.py], which is not
    among the sources.  It dumps the entity's fields, inserts the document
    into the collection of that entity and answers the newly assigned
    identifier as a string: one insert, no validation of its own. *)
Definition create_document {A} `{Collection A} (data : A) : M string :=
  let* oid := insert_one data in
  ret (oid_str oid).

(** Modelled from the spec: [get_documents] of [database.py], which is not
    among the sources.  It answers every document of the collection that
    passes the equality filter (the empty filter passes all), in insertion
    order, without any limit. *)
Definition get_documents {A} `{Collection A} (filt : Doc A -> bool)
  : M (list (Doc A)) :=
  gets (fun s => List.filter filt (coll_get s)).

Definition no_filter {A} : Doc A -> bool := fun _ => true.

(** [db[c].find()] *)
Definition find_all {A} `{Collection A} : M (list (Doc A)) := gets coll_get.

(** ** Python containers used by the handlers *)

(** [l[start:]] for any integer [start]. *)
Definition slice_from {A} (start : Z) (l : list A) : list A :=
  let n := Z.of_nat (length l) in
  let lo := if start <? 0 then Z.max 0 (start + n) else Z.min start n in
  drop (Z.to_nat lo) l.

(** [{str(x["_id"]): x for x in docs}]: a later document with the same key
    replaces an earlier one. *)
Definition dict_by_id {A} (docs : list (Doc A)) : gmap string (Doc A) :=
  foldl (fun m x => <[oid_str (_id x) := x]> m) ∅ docs.

(** A [dict] whose iteration order matters: keys in insertion order. *)
Definition odict (V : Type) : Type := list (string * V).

Fixpoint odict_get {V} (k : string) (d : odict V) : option V :=
  match d with
  | [] => None
  | (k', v) :: rest => if String.eqb k' k then Some v else odict_get k rest
  end.

(** [d.setdefault(k, v)] *)
Definition odict_setdefault {V} (k : string) (v : V) (d : odict V) : odict V :=
  match odict_get k d with
  | Some _ => d
  | None => (d ++ [(k, v)])%list
  end.

(** [d[k] += v] for a key that is present; a missing key is a [KeyError],
    and no caller reaches that case. *)
Fixpoint odict_add (k : string) (v : Z) (d : odict Z) : odict Z :=
  match d with
  | [] => []
  | (k', w) :: rest =>
      if String.eqb k' k then (k', w + v) :: rest
      else (k', w) :: odict_add k v rest
  end.

(** [sorted(items, key=lambda kv: kv[1], reverse=True)]: a stable sort,
    largest value first; entries with equal values keep their order. *)
Fixpoint insert_desc {K} (x : K * Z) (l : list (K * Z)) : list (K * Z) :=
  match l with
  | [] => [x]
  | y :: rest =>
      if snd x <? snd y then y :: insert_desc x rest else x :: y :: rest
  end.

Definition sorted_desc {K} (l : list (K * Z)) : list (K * Z) :=
  foldr insert_desc [] l.

(** [db[c].insert_many(docs)]: one insert after the other. *)
Fixpoint insert_many {A} `{Collection A} (docs : list A) : M (list ObjectId) :=
  match docs with
  | [] => ret []
  | x :: rest =>
      let* oid := insert_one x in
      let* oids := insert_many rest in
      ret (oid :: oids)
  end.

(** ** Handlers ([main.py]) *)

(** [serialize(doc)]: the document with its [_id] as a string. *)
Definition serialize {A} (x : Doc A) : string * A * option datetime :=
  (oid_str (_id x), fields x, updated_at x).

Definition seed_ngo (name registration_id category : string) : NGO.t :=
  NGO.mk name registration_id category
         (Some "Bengaluru") (Some "Karnataka") true.

Definition seed_campaign (title ngo_id domain : string) (goal_inr : Z)
  (description : string) : Campaign.t :=
  Campaign.mk title ngo_id domain goal_inr 0 (Some description)
              None None None.

(** [POST /api/seed] *)
Definition seed : M string :=
  let* n := count_documents (A := NGO.t) in
  let* _ :=
    if Nat.eqb n 0 then
      let* id0 := insert_one (seed_ngo "Aranya Eco Foundation" "KA-REG-001" "Air") in
      let* id1 := insert_one (seed_ngo "JalRaksha Trust" "KA-REG-002" "Water") in
      let* id2 := insert_one (seed_ngo "Nirmal Waste Collective" "KA-REG-003" "Waste") in
      let* _ := insert_many
        [ seed_campaign "Air: Urban Tree Plantation" (oid_str id0) "Air" 500000
            "Plant and maintain native trees in urban hotspots.";
          seed_campaign "Water: Lake Restoration" (oid_str id1) "Water" 800000
            "Desilting and wetland buffer creation.";
          seed_campaign "Waste: Smart Segregation" (oid_str id2) "Waste" 300000
            "IoT bins and community awareness." ] in
      ret tt
    else ret tt in
  ret "ok".

(** [GET /api/ngos] *)
Definition list_ngos : M (list (string * NGO.t * option datetime)) :=
  let* items := get_documents (A := NGO.t) no_filter in
  ret (map serialize items).

(** [POST /api/ngos] *)
Definition create_ngo (ngo : NGO.t) : M string :=
  create_document ngo.

(** [GET /api/campaigns]: each campaign with its NGO's name when the
    reference resolves. *)
Definition list_campaigns (domain : option string)
  : M (list (string * Campaign.t * option datetime * option string)) :=
  let filt :=
    match domain with
    | Some d =>
        if String.eqb d "" then no_filter
        else fun x => String.eqb (Campaign.domain (fields x)) d
    | None => no_filter
    end in
  let* items := get_documents (A := Campaign.t) filt in
  let* ngos := find_all (A := NGO.t) in
  let ngo_map := dict_by_id ngos in
  ret (map (fun it =>
              (serialize it,
               NGO.name ∘ fields <$> ngo_map !! Campaign.ngo_id (fields it)))
           items).

(** [POST /api/campaigns] *)
Definition create_campaign (c : Campaign.t) : M string :=
  let* ngo :=
    if ObjectId_is_valid (Campaign.ngo_id c) then
      let* oid := ObjectId_from (Campaign.ngo_id c) in
      find_one_id (A := NGO.t) oid
    else ret None in
  match ngo with
  | None => raise_http 400 "NGO not found"
  | Some _ => create_document c
  end.

(** [GET /api/donations] *)
Definition list_donations : M (list (string * Donation.t * option datetime)) :=
  let* items := get_documents (A := Donation.t) no_filter in
  ret (map serialize items).

(** [Donation(...)]: building the entity checks its field constraints and
    raises pydantic's [ValidationError] when one fails. *)
Definition Donation_new (campaign_id : string) (donor_name : option string)
  (amount_inr : Z) (payment_method : string) : M Donation.t :=
  let d := Donation.mk campaign_id donor_name amount_inr payment_method in
  if Donation.validate d then ret d
  else raise (ValidationError "amount_inr: Input should be greater than or equal to 1").

Record DonationOut := mkDonationOut {
  out_donation_id : string;
  out_tx_hash : string;
  out_receipt_id : string;
  out_message : string
}.

Section Workflow.

(** [format(oid, "x")], the meaning of [f"{ObjectId():x}"]: a string, or
    [None] for the [TypeError] Python raises when the class does not accept
    the format specification.  bson's [ObjectId] defines no [__format__], so
    there it is always [None] ([bson_format] below); the workflow is written
    for any answer, and what is proved of it for every [format_x] holds of
    the code in particular. *)
Variable format_x : ObjectId -> option string.

(** [POST /api/donations].  [now_update] and [now_issue] are the two
    readings of [datetime.utcnow()]. *)
Definition create_donation (now_update now_issue : datetime)
  (payload : DonationIn.t) : M DonationOut :=
  if negb (ObjectId_is_valid (DonationIn.campaign_id payload)) then
    raise_http 400 "Invalid campaign id"
  else
  let* oid := ObjectId_from (DonationIn.campaign_id payload) in
  let* camp := find_one_id (A := Campaign.t) oid in
  match camp with
  | None => raise_http 404 "Campaign not found"
  | Some _ =>
  let* donation :=
    Donation_new (DonationIn.campaign_id payload)
                 (DonationIn.donor_name payload)
                 (DonationIn.amount_inr payload)
                 (DonationIn.payment_method payload) in
  let* donation_id := create_document donation in
  let* oid' := ObjectId_from (DonationIn.campaign_id payload) in
  let* _ :=
    update_one_id oid'
      (inc_raised_set_updated (DonationIn.amount_inr payload) now_update) in
  let* fresh := ObjectId_new in
  match format_x fresh with
  | None => raise (TypeError "unsupported format string passed to ObjectId.__format__")
  | Some hex =>
  let tx_hash := "0x" +:+ hex in
  let tx := Transaction.mk donation_id tx_hash "Settled" in
  let* tx_id := create_document tx in
  let receipt :=
    Receipt.mk donation_id (Some ("nft-" +:+ donation_id)) (Some now_issue) in
  let* receipt_id := create_document receipt in
  ret (mkDonationOut donation_id tx_hash receipt_id
                     "Donation recorded with on-chain receipt")
  end
  end.

End Workflow.

(** A row of the ledger: the serialized transaction and the joined fields
    that could be resolved. *)
Record LedgerRow := mkLedgerRow {
  row_id : string;
  row_donation_id : string;
  row_tx_hash : string;
  row_status : string;
  row_amount_inr : option Z;
  row_campaign_title : option string;
  row_domain : option string;
  row_ngo_name : option string
}.

(** [m.get(k) if k else None] *)
Definition get_if_key {V} (m : gmap string V) (k : string) : option V :=
  if String.eqb k "" then None else m !! k.

(** The body of the loop of [list_transactions]. *)
Definition ledger_row (donation_map : gmap string (Doc Donation.t))
  (campaign_map : gmap string (Doc Campaign.t))
  (ngo_map : gmap string (Doc NGO.t)) (it : Doc Transaction.t) : LedgerRow :=
  let d := donation_map !! Transaction.donation_id (fields it) in
  let camp :=
    d ≫= fun d => get_if_key campaign_map (Donation.campaign_id (fields d)) in
  let ngo :=
    camp ≫= fun c => get_if_key ngo_map (Campaign.ngo_id (fields c)) in
  mkLedgerRow (oid_str (_id it))
              (Transaction.donation_id (fields it))
              (Transaction.tx_hash (fields it))
              (Transaction.status (fields it))
              (Donation.amount_inr ∘ fields <$> d)
              (Campaign.title ∘ fields <$> camp)
              (Campaign.domain ∘ fields <$> camp)
              (NGO.name ∘ fields <$> ngo).

(** [GET /api/transactions?limit=N] *)
Definition list_transactions (limit : Z) : M (list LedgerRow) :=
  let* items := get_documents (A := Transaction.t) no_filter in
  let items := slice_from (- limit) items in
  let* donations := find_all (A := Donation.t) in
  let* campaigns := find_all (A := Campaign.t) in
  let* ngos := find_all (A := NGO.t) in
  let donation_map := dict_by_id donations in
  let campaign_map := dict_by_id campaigns in
  let ngo_map := dict_by_id ngos in
  ret (map (ledger_row donation_map campaign_map ngo_map) (rev items)).

(** The default of the [limit] query parameter. *)
Definition default_limit : Z := 50.

(** [db["donation"].aggregate([{"$group": {"_id": "$campaign_id",
    "raised": {"$sum": "$amount_inr"}}}])]: one row per distinct
    [campaign_id] with the sum of the amounts of its donations.  The store
    leaves the order of the rows open; they are listed here in the order in
    which each [campaign_id] first occurs. *)
Definition aggregate_group (docs : list (Doc Donation.t)) : odict Z :=
  foldl (fun acc d =>
           odict_add (Donation.campaign_id (fields d))
                     (Donation.amount_inr (fields d))
                     (odict_setdefault (Donation.campaign_id (fields d)) 0 acc))
        [] docs.

(** The loop of [leaderboard] that fills [ngo_points]. *)
Definition award (camp_map : gmap string (Doc Campaign.t))
  (ngo_points : odict Z) (row : string * Z) : odict Z :=
  match camp_map !! fst row with
  | None => ngo_points
  | Some camp =>
      let ngo_id := Campaign.ngo_id (fields camp) in
      odict_add ngo_id (snd row `div` 100) (odict_setdefault ngo_id 0 ngo_points)
  end.

Definition ngo_points_of (s : Store) : odict Z :=
  foldl (award (dict_by_id (campaign s))) [] (aggregate_group (donation s)).

Record LeaderboardItem := mkLeaderboardItem {
  entity : string;
  eco_points : Z
}.

(** [ngos.get(ngo_id, {}).get("name", "Unknown NGO")] *)
Definition entity_name (ngos : gmap string (Doc NGO.t)) (ngo_id : string)
  : string :=
  match ngos !! ngo_id with
  | Some x => NGO.name (fields x)
  | None => "Unknown NGO"
  end.

(** The rows of the leaderboard before they are given their display name:
    NGO identifier and points, best first. *)
Definition leaderboard_ranking (s : Store) : list (string * Z) :=
  sorted_desc (ngo_points_of s).

(** [GET /api/leaderboard] *)
Definition leaderboard : M (list LeaderboardItem) :=
  let* donations := find_all (A := Donation.t) in
  let agg := aggregate_group donations in
  let* campaigns := find_all (A := Campaign.t) in
  let camp_map := dict_by_id campaigns in
  let ngo_points := foldl (award camp_map) [] agg in
  let* ngo_docs := find_all (A := NGO.t) in
  let ngos := dict_by_id ngo_docs in
  ret (map (fun kv => mkLeaderboardItem (entity_name ngos (fst kv)) (snd kv))
           (sorted_desc ngo_points)).

(** [GET /] *)
Definition root : M string := ret "ParyavaranSahyog API running".

(** [GET /test]: the names of the collections that exist, that is, those a
    document was ever inserted into (nothing is ever deleted). *)
Definition test_database : M (list string) :=
  gets (fun s =>
          (if ngo s is [] then [] else ["ngo"]) ++
          (if campaign s is [] then [] else ["campaign"]) ++
          (if donation s is [] then [] else ["donation"]) ++
          (if transaction s is [] then [] else ["transaction"]) ++
          (if receipt s is [] then [] else ["receipt"]))%list.

(** ** The API surface *)

Inductive Request :=
| GET_root
| GET_test
| POST_seed
| GET_ngos
| POST_ngos (body : NGO.t)
| GET_campaigns (domain : option string)
| POST_campaigns (body : Campaign.t)
| GET_donations
| POST_donations (body : DonationIn.t) (now_update now_issue : datetime)
| GET_transactions (limit : option Z)
| GET_leaderboard.

Inductive Body :=
| Message (m : string)
| Collections (names : list string)
| NewId (new_id : string)
| NGOs (items : list (string * NGO.t * option datetime))
| Campaigns (items : list (string * Campaign.t * option datetime * option string))
| Donations (items : list (string * Donation.t * option datetime))
| DonationRecorded (out : DonationOut)
| Ledger (rows : list LedgerRow)
| Leaderboard (rows : list LeaderboardItem).

Definition fmap_M {A B} (f : A -> B) (c : M A) : M B :=
  let* a := c in ret (f a).

Section Api.

Variable format_x : ObjectId -> option string.

(** Routing.  A body declared with an entity schema is checked against it
    before the handler runs; a body that fails is answered 422. *)
Definition serve (r : Request) : M Body :=
  match r with
  | GET_root => fmap_M Message root
  | GET_test => fmap_M Collections test_database
  | POST_seed => fmap_M Message seed
  | GET_ngos => fmap_M NGOs list_ngos
  | POST_ngos body => fmap_M NewId (create_ngo body)
  | GET_campaigns domain => fmap_M Campaigns (list_campaigns domain)
  | POST_campaigns body =>
      if Campaign.validate body then fmap_M NewId (create_campaign body)
      else raise_http 422 "Unprocessable Entity"
  | GET_donations => fmap_M Donations list_donations
  | POST_donations body now_update now_issue =>
      fmap_M DonationRecorded
             (create_donation format_x now_update now_issue body)
  | GET_transactions limit =>
      fmap_M Ledger (list_transactions (default default_limit limit))
  | GET_leaderboard => fmap_M Leaderboard leaderboard
  end.

(** The stores the API can bring about, starting from the empty one. *)
Inductive reachable : Store -> Prop :=
| reachable_empty : reachable empty_store
| reachable_serve r s : reachable s -> reachable (snd (serve r s)).

(** The store after a sequence of requests. *)
Definition run (rs : list Request) (s : Store) : Store :=
  foldl (fun s r => snd (serve r s)) s rs.

End Api.

(** The campaign a [campaign_id] string designates in a store, if any: the
    string must be an identifier and a campaign must carry it. *)
Definition referenced_campaign (campaign_id : string) (s : Store)
  : option (Doc Campaign.t) :=
  match ObjectId_of campaign_id with
  | Some oid => find_by_id oid (campaign s)
  | None => None
  end.

(** * Definitions for the statements *)

(** ** The stores the handlers leave behind *)

(** The store after the donation is inserted and the campaign total is
    raised (steps 2 and 3), two identifiers having been drawn. *)
Definition after_increment (now_update : datetime) (payload : DonationIn.t)
  (oid : ObjectId) (s : Store) : Store :=
  mkStore (ngo s)
    (update_first oid
       (inc_raised_set_updated (DonationIn.amount_inr payload) now_update)
       (campaign s))
    (donation s ++
       [mkDoc (next_oid s)
          (Donation.mk (DonationIn.campaign_id payload)
                       (DonationIn.donor_name payload)
                       (DonationIn.amount_inr payload)
                       (DonationIn.payment_method payload)) None])%list
    (transaction s) (receipt s) (next_oid s + 2)%N.

(** The store after a donation went through all five steps. *)
Definition after_donation (now_update now_issue : datetime)
  (payload : DonationIn.t) (oid : ObjectId) (hex : string) (s : Store)
  : Store :=
  let s2 := after_increment now_update payload oid s in
  let donation_id := oid_str (next_oid s) in
  mkStore (ngo s2) (campaign s2) (donation s2)
    (transaction s ++
       [mkDoc (next_oid s + 2)%N
          (Transaction.mk donation_id ("0x" +:+ hex) "Settled") None])%list
    (receipt s ++
       [mkDoc (next_oid s + 3)%N
          (Receipt.mk donation_id (Some ("nft-" +:+ donation_id))
                      (Some now_issue)) None])%list
    (next_oid s + 4)%N.

(** What the seed inserts into a store whose NGO collection is empty. *)
Definition seed_inserts (s : Store) : Store :=
  let k := next_oid s in
  mkStore
    [ mkDoc k (seed_ngo "Aranya Eco Foundation" "KA-REG-001" "Air") None;
      mkDoc (k + 1)%N (seed_ngo "JalRaksha Trust" "KA-REG-002" "Water") None;
      mkDoc (k + 2)%N (seed_ngo "Nirmal Waste Collective" "KA-REG-003" "Waste") None ]
    (campaign s ++
     [ mkDoc (k + 3)%N
         (seed_campaign "Air: Urban Tree Plantation" (oid_str k) "Air" 500000
            "Plant and maintain native trees in urban hotspots.") None;
       mkDoc (k + 4)%N
         (seed_campaign "Water: Lake Restoration" (oid_str (k + 1)%N) "Water"
            800000 "Desilting and wetland buffer creation.") None;
       mkDoc (k + 5)%N
         (seed_campaign "Waste: Smart Segregation" (oid_str (k + 2)%N) "Waste"
            300000 "IoT bins and community awareness.") None ])%list
    (donation s) (transaction s) (receipt s) (k + 6)%N.

(** ** Stores used in the examples *)

(** What bson's [ObjectId] answers to the presentation type [x]: the class
    defines no [__format__], so every [format(oid, "x")] raises [TypeError].
    This is the [format_x] of the code. *)
Definition bson_format (oid : ObjectId) : option string := None.

(** The store right after [POST /api/seed] on an empty database. *)
Definition seeded : Store := run bson_format [POST_seed] empty_store.

(** The identifier the seed gives the campaign "Air: Urban Tree Plantation". *)
Definition air_id : string := "000000000000000000000003".

(** The identifier the seed gives the NGO "Aranya Eco Foundation". *)
Definition aranya_id : string := "000000000000000000000000".

Definition air_campaign : Doc Campaign.t :=
  mkDoc 3%N
    (seed_campaign "Air: Urban Tree Plantation" "000000000000000000000000"
       "Air" 500000 "Plant and maintain native trees in urban hotspots.")
    None.

Definition donate (campaign_id : string) (amount : Z) : DonationIn.t :=
  DonationIn.mk campaign_id (Some "Asha") amount "upi".

(** A store as the workflow would leave it after the seed and two
    donations to the Air campaign if line 166 gave the hash its hexadecimal
    digits: two donations, their two transactions and two receipts.  It is
    written out by hand; with [bson_format] no request writes a
    transaction. *)
Definition two_donations : Store :=
  mkStore
    [ mkDoc 0%N (seed_ngo "Aranya Eco Foundation" "KA-REG-001" "Air") None;
      mkDoc 1%N (seed_ngo "JalRaksha Trust" "KA-REG-002" "Water") None;
      mkDoc 2%N (seed_ngo "Nirmal Waste Collective" "KA-REG-003" "Waste") None ]
    [ mkDoc 3%N
        (Campaign.with_raised_inr 1250
           (seed_campaign "Air: Urban Tree Plantation"
              "000000000000000000000000" "Air" 500000
              "Plant and maintain native trees in urban hotspots."))
        (Some 20);
      mkDoc 4%N
        (seed_campaign "Water: Lake Restoration" "000000000000000000000001"
           "Water" 800000 "Desilting and wetland buffer creation.") None;
      mkDoc 5%N
        (seed_campaign "Waste: Smart Segregation" "000000000000000000000002"
           "Waste" 300000 "IoT bins and community awareness.") None ]
    [ mkDoc 6%N (Donation.mk air_id (Some "Asha") 1000 "upi") None;
      mkDoc 10%N (Donation.mk air_id (Some "Asha") 250 "upi") None ]
    [ mkDoc 8%N
        (Transaction.mk "000000000000000000000006"
           "0x000000000000000000000007" "Settled") None;
      mkDoc 12%N
        (Transaction.mk "00000000000000000000000a"
           "0x00000000000000000000000b" "Settled") None ]
    [ mkDoc 9%N
        (Receipt.mk "000000000000000000000006"
           (Some "nft-000000000000000000000006") (Some 11)) None;
      mkDoc 13%N
        (Receipt.mk "00000000000000000000000a"
           (Some "nft-00000000000000000000000a") (Some 21)) None ]
    14%N.

(** The store the code reaches by the seed and two donations to the Air
    campaign. *)
Definition two_gifts : Store :=
  run bson_format
    [ POST_seed;
      POST_donations (donate air_id 1000) 10 11;
      POST_donations (donate air_id 250) 20 21 ]
    empty_store.

(** Seed, a second campaign for the first NGO, and 50 INR to each of its two
    campaigns. *)
Definition two_campaigns : Store :=
  run bson_format
    [ POST_seed;
      POST_campaigns
        (Campaign.mk "Air: Schoolyard Saplings" "000000000000000000000000"
           "Air" 100000 0 None None None None);
      POST_donations (donate air_id 50) 10 11;
      POST_donations (donate "000000000000000000000006" 50) 20 21 ]
    empty_store.

(** Seed, and a single donation of 50 INR. *)
Definition fifty : Store :=
  run bson_format [POST_seed; POST_donations (donate air_id 50) 10 11]
      empty_store.

(** ** How a request changes the campaigns *)

Definition raised_nonneg (c : Doc Campaign.t) : Prop :=
  0 <= Campaign.raised_inr (fields c).

(** What a request does to the campaign collection: it appends campaigns
    (possibly none), or it is a recorded donation that raises one total. *)
Inductive campaign_change (s s' : Store) : Prop :=
| campaigns_appended extra :
    campaign s' = (campaign s ++ extra)%list ->
    Forall raised_nonneg extra ->
    campaign_change s s'
| campaign_raised oid now d :
    1 <= Donation.amount_inr (fields d) ->
    campaign s' =
      update_first oid
        (inc_raised_set_updated (Donation.amount_inr (fields d)) now)
        (campaign s) ->
    donation s' = (donation s ++ [d])%list ->
    campaign_change s s'.

(** ** Grouped sums and points *)

Definition Zsum (l : list Z) : Z := foldr Z.add 0 l.

(** [d.setdefault(k, 0); d[k] += v] *)
Definition odict_accum (k : string) (v : Z) (d : odict Z) : odict Z :=
  odict_add k v (odict_setdefault k 0 d).

(** The same, for a list of keyed amounts in turn. *)
Definition accumulate (events : list (string * Z)) (d : odict Z) : odict Z :=
  foldl (fun acc e => odict_accum (fst e) (snd e) acc) d events.

(** The sum of the amounts filed under key [k]. *)
Definition key_sum (k : string) (events : list (string * Z)) : Z :=
  Zsum (map snd (List.filter (fun e => String.eqb (fst e) k) events)).

Definition has_key (k : string) (events : list (string * Z)) : bool :=
  existsb (fun e => String.eqb (fst e) k) events.

Definition points_ge {K} (a b : K * Z) : Prop := snd b <= snd a.

(** The donations as keyed amounts: campaign reference and amount. *)
Definition donation_events (docs : list (Doc Donation.t)) : list (string * Z) :=
  map (fun d => (Donation.campaign_id (fields d), Donation.amount_inr (fields d)))
      docs.

(** What a row of the aggregation earns, and for whom: nothing when its
    campaign reference does not resolve. *)
Definition resolve (camp_map : gmap string (Doc Campaign.t)) (row : string * Z)
  : option (string * Z) :=
  camp ← camp_map !! fst row;
  Some (Campaign.ngo_id (fields camp), snd row `div` 100).

(** The events the loop of [leaderboard] accumulates. *)
Definition award_events (s : Store) : list (string * Z) :=
  omap (resolve (dict_by_id (campaign s))) (aggregate_group (donation s)).

(** The total donated under one campaign reference. *)
Definition campaign_total (docs : list (Doc Donation.t)) (k : string) : Z :=
  Zsum (map (fun d => Donation.amount_inr (fields d))
            (List.filter
               (fun d => String.eqb (Donation.campaign_id (fields d)) k) docs)).

(** The campaign references that occur in the donations, each once. *)
Definition donated_campaigns (docs : list (Doc Donation.t)) : list string :=
  remove_dups (map (fun d => Donation.campaign_id (fields d)) docs).

(** Whether the reference [k] resolves to a campaign of the NGO [n]. *)
Definition owned_by (camp_map : gmap string (Doc Campaign.t)) (n k : string)
  : bool :=
  match camp_map !! k with
  | Some camp => String.eqb (Campaign.ngo_id (fields camp)) n
  | None => false
  end.

(** The points of an NGO, campaign by campaign: each donated campaign of the
    NGO gives the floor of a hundredth of its own total. *)
Definition points_by_campaign (s : Store) (n : string) : Z :=
  Zsum (map (fun k => campaign_total (donation s) k `div` 100)
            (List.filter (owned_by (dict_by_id (campaign s)) n)
                         (donated_campaigns (donation s)))).

(** The points of an NGO as the specification words them: the floor of a
    hundredth of the total donated to all its campaigns together. *)
Definition points_of_total (s : Store) (n : string) : Z :=
  Zsum (map (fun d => Donation.amount_inr (fields d))
            (List.filter
               (fun d => owned_by (dict_by_id (campaign s)) n
                                  (Donation.campaign_id (fields d)))
               (donation s)))
  `div` 100.

(** ** Further notions for the handlers *)

(** The NGO an [ngo_id] string designates in a store, if any. *)
Definition referenced_ngo (ngo_id : string) (s : Store) : option (Doc NGO.t) :=
  match ObjectId_of ngo_id with
  | Some oid => find_by_id oid (ngo s)
  | None => None
  end.

(** The requests routed to a [GET] handler. *)
Definition is_GET (r : Request) : bool :=
  match r with
  | GET_root | GET_test | GET_ngos | GET_campaigns _ | GET_donations
  | GET_transactions _ | GET_leaderboard => true
  | POST_seed | POST_ngos _ | POST_campaigns _ | POST_donations _ _ _ => false
  end.

(** The store after [create_document] put [data] into the campaigns. *)
Definition with_new_campaign (data : Campaign.t) (s : Store) : Store :=
  mkStore (ngo s) (campaign s ++ [mkDoc (next_oid s) data None]) (donation s)
          (transaction s) (receipt s) (next_oid s + 1)%N.

(** The store after [create_document] put [data] into the NGOs. *)
Definition with_new_ngo (data : NGO.t) (s : Store) : Store :=
  mkStore (ngo s ++ [mkDoc (next_oid s) data None]) (campaign s) (donation s)
          (transaction s) (receipt s) (next_oid s + 1)%N.

(** ** Consistency of a store *)

(** The document a reference string designates in a collection, if any. *)
Definition designated {A} (key : string) (docs : list (Doc A))
  : option (Doc A) :=
  match ObjectId_of key with
  | Some oid => find_by_id oid docs
  | None => None
  end.

Definition ids {A} (docs : list (Doc A)) : list ObjectId := map _id docs.

(** The identifiers of a collection are distinct and were drawn before [k]. *)
Definition fresh_ids {A} (k : N) (docs : list (Doc A)) : Prop :=
  NoDup (ids docs) /\ Forall (fun x => (_id x < k)%N) docs.

(** The total of the donations made out to the campaign [oid]. *)
Definition donated_to (oid : ObjectId) (docs : list (Doc Donation.t)) : Z :=
  Zsum (map (fun d => Donation.amount_inr (fields d))
            (List.filter
               (fun d => bool_decide
                           (ObjectId_of (Donation.campaign_id (fields d))
                            = Some oid))
               docs)).

Record consistent (s : Store) : Prop := mk_consistent {
  c_ngo_ids : fresh_ids (next_oid s) (ngo s);
  c_campaign_ids : fresh_ids (next_oid s) (campaign s);
  c_donation_ids : fresh_ids (next_oid s) (donation s);
  c_transaction_ids : fresh_ids (next_oid s) (transaction s);
  c_receipt_ids : fresh_ids (next_oid s) (receipt s);
  c_campaign_refs :
    Forall (fun c => is_Some (designated (Campaign.ngo_id (fields c)) (ngo s)))
           (campaign s);
  c_donation_refs :
    Forall (fun d => is_Some (designated (Donation.campaign_id (fields d))
                                         (campaign s)))
           (donation s);
  c_transaction_refs :
    Forall (fun t => Transaction.donation_id (fields t)
                     ∈ map (fun d => oid_str (_id d)) (donation s))
           (transaction s);
  c_receipt_refs :
    Forall (fun r => Receipt.donation_id (fields r)
                     ∈ map (fun d => oid_str (_id d)) (donation s))
           (receipt s);
  c_amounts :
    Forall (fun d => 1 <= Donation.amount_inr (fields d)) (donation s);
  c_no_ngo : ngo s = [] -> s = empty_store;
  c_totals :
    Forall (fun c => donated_to (_id c) (donation s)
                     <= Campaign.raised_inr (fields c))
           (campaign s)
}.

(** What a request can have written. *)
Inductive written (s : Store) : Store -> Prop :=
| written_nothing : written s s
| written_seed : ngo s = [] -> written s (seed_inserts s)
| written_ngo data : written s (with_new_ngo data s)
| written_campaign c n :
    Campaign.validate c = true ->
    designated (Campaign.ngo_id c) (ngo s) = Some n ->
    written s (with_new_campaign c s)
| written_increment now_update payload oid camp :
    ObjectId_of (DonationIn.campaign_id payload) = Some oid ->
    find_by_id oid (campaign s) = Some camp ->
    1 <= DonationIn.amount_inr payload ->
    written s (after_increment now_update payload oid s)
| written_donation now_update now_issue payload oid hex camp :
    ObjectId_of (DonationIn.campaign_id payload) = Some oid ->
    find_by_id oid (campaign s) = Some camp ->
    1 <= DonationIn.amount_inr payload ->
    written s (after_donation now_update now_issue payload oid hex s).

(** The number of 12-byte identifiers. *)
Definition oid_space : N := (16 ^ 24)%N.

(** The value a handler answered, when it answered one. *)
Definition answer {A} (r : Response A * Store) : option A :=
  match fst r with
  | Return a => Some a
  | _ => None
  end.

(** The campaigns [GET /api/campaigns] selects for a [domain] parameter: an
    absent or empty parameter selects all. *)
Definition selected_campaigns (domain : option string) (s : Store)
  : list (Doc Campaign.t) :=
  match domain with
  | Some d =>
      if String.eqb d "" then campaign s
      else List.filter (fun x => String.eqb (Campaign.domain (fields x)) d)
                       (campaign s)
  | None => campaign s
  end.

(** The campaign a row of [GET /api/campaigns] shows, and its identifier. *)
Definition row_campaign
  (row : string * Campaign.t * option datetime * option string) : Campaign.t :=
  snd (fst (fst row)).

Definition row_campaign_id
  (row : string * Campaign.t * option datetime * option string) : string :=
  fst (fst (fst row)).

(** Seed, two donations, and a campaign whose identifier has a letter among
    its digits. *)
Definition lettered : Store :=
  run bson_format
    [ POST_seed;
      POST_donations (donate air_id 1000) 10 11;
      POST_donations (donate air_id 250) 12 13;
      POST_campaigns
        (Campaign.mk "Air: Schoolyard Saplings" aranya_id "Air" 100000 0
                     None None None None) ]
    empty_store.

(** * Properties *)

(** ** Store primitives *)


Lemma find_by_id_id {A} oid (docs : list (Doc A)) x :
  find_by_id oid docs = Some x -> _id x = oid.
Proof.
  unfold find_by_id. intros H. apply find_some in H as [_ H].
  by apply N.eqb_eq.
Qed.

Lemma find_by_id_update_first {A} oid (u : Doc A -> Doc A) docs x :
  (forall y, _id (u y) = _id y) ->
  find_by_id oid docs = Some x ->
  find_by_id oid (update_first oid u docs) = Some (u x).
Proof.
  intros Hu. unfold find_by_id.
  induction docs as [|y rest IH]; simpl; [discriminate|].
  destruct (N.eqb (_id y) oid) eqn:E; simpl.
  - intros [= ->]. by rewrite Hu, E.
  - rewrite E. exact IH.
Qed.

Lemma update_first_absent {A} oid (u : Doc A -> Doc A) docs :
  find_by_id oid docs = None -> update_first oid u docs = docs.
Proof.
  unfold find_by_id. induction docs as [|y rest IH]; simpl; [done|].
  destruct (N.eqb (_id y) oid); [discriminate|].
  intros H. by rewrite IH.
Qed.

Lemma update_first_length {A} oid (u : Doc A -> Doc A) docs :
  length (update_first oid u docs) = length docs.
Proof.
  induction docs as [|y rest IH]; simpl; [done|].
  destruct (N.eqb (_id y) oid); simpl; auto.
Qed.

(** Position by position, [update_one] leaves a document as it was or
    replaces it by its update. *)
Lemma update_first_lookup {A} oid (u : Doc A -> Doc A) docs (i : nat) x :
  docs !! i = Some x ->
  update_first oid u docs !! i = Some x \/
  update_first oid u docs !! i = Some (u x).
Proof.
  revert i. induction docs as [|y rest IH]; intros i; simpl; [done|].
  destruct (N.eqb (_id y) oid); destruct i as [|i]; simpl; auto.
  intros [= ->]. auto.
Qed.

Lemma inc_raised_id amount now x :
  _id (inc_raised_set_updated amount now x) = _id x.
Proof. reflexivity. Qed.

Lemma inc_raised_value amount now x :
  Campaign.raised_inr (fields (inc_raised_set_updated amount now x))
  = Campaign.raised_inr (fields x) + amount.
Proof. reflexivity. Qed.

(** ** The donation workflow, case by case *)

Lemma N_succ_chain (n : N) :
  (n + 1 + 1 = n + 2)%N /\ (n + 2 + 1 = n + 3)%N /\ (n + 3 + 1 = n + 4)%N.
Proof. lia. Qed.

Lemma create_donation_unfold format_x now_update now_issue payload s :
  create_donation format_x now_update now_issue payload s =
  match ObjectId_of (DonationIn.campaign_id payload) with
  | None =>
      (if ObjectId_is_valid (DonationIn.campaign_id payload)
       then HTTPException 404 "Campaign not found"
       else HTTPException 400 "Invalid campaign id",
       s)
  | Some oid =>
      match find_by_id oid (campaign s) with
      | None => (HTTPException 404 "Campaign not found", s)
      | Some _ =>
          if 1 <=? DonationIn.amount_inr payload then
            match format_x (next_oid s + 1)%N with
            | None =>
                (Uncaught (TypeError "unsupported format string passed to ObjectId.__format__"),
                 after_increment now_update payload oid s)
            | Some hex =>
                (Return (mkDonationOut (oid_str (next_oid s)) ("0x" +:+ hex)
                           (oid_str (next_oid s + 3)%N)
                           "Donation recorded with on-chain receipt"),
                 after_donation now_update now_issue payload oid hex s)
            end
          else
            (Uncaught (ValidationError "amount_inr: Input should be greater than or equal to 1"), s)
      end
  end.
Proof.
  destruct (N_succ_chain (next_oid s)) as (E2 & E3 & E4).
  unfold create_donation, ObjectId_is_valid, ObjectId_from, ObjectId_of.
  destruct (ObjectId_read (DonationIn.campaign_id payload)) as [bs|];
    [|reflexivity].
  unfold negb, bind at 1, ret at 1, bind at 1, find_one_id, update_one_id.
  cbn [mbind option_bind].
  destruct (stored_id bs) as [oid|] eqn:Hstored; [|reflexivity].
  unfold find_one, gets.
  change (coll_get (A := Campaign.t) s) with (campaign s).
  destruct (find_by_id oid (campaign s)) as [camp|]; [|reflexivity].
  unfold bind at 1, Donation_new, Donation.validate.
  cbn [Donation.amount_inr].
  destruct (1 <=? DonationIn.amount_inr payload); [|reflexivity].
  unfold bind, ret, raise, create_document, insert_one, update_one, modify,
    ObjectId_new, bind, ret.
  simpl. rewrite Hstored. simpl.
  destruct (format_x (next_oid s + 1)%N) as [hex|]; simpl.
  - unfold after_donation, after_increment. simpl. by rewrite E2, E3, E4.
  - unfold after_increment. by rewrite E2.
Qed.

Example seeded_air_campaign : referenced_campaign air_id seeded = Some air_campaign.
Proof. reflexivity. Qed.

(** ** The donation workflow *)

(** C1.  When the [campaign_id] of a donation request designates an existing
    campaign and the amount is at least 1, then once [POST /api/donations]
    has run the designated campaign's [raised_inr] is its former value plus
    [amount_inr]. *)
Theorem donation_raises_campaign_total format_x now_update now_issue payload s camp :
  referenced_campaign (DonationIn.campaign_id payload) s = Some camp ->
  1 <= DonationIn.amount_inr payload ->
  exists camp',
    referenced_campaign (DonationIn.campaign_id payload)
      (snd (create_donation format_x now_update now_issue payload s))
    = Some camp' /\
    _id camp' = _id camp /\
    Campaign.raised_inr (fields camp')
    = Campaign.raised_inr (fields camp) + DonationIn.amount_inr payload.
Proof.
  intros Href Hamount. rewrite create_donation_unfold.
  unfold referenced_campaign in *.
  destruct (ObjectId_of (DonationIn.campaign_id payload)) as [oid|];
    [|discriminate].
  rewrite Href. apply Z.leb_le in Hamount. rewrite Hamount.
  exists (inc_raised_set_updated (DonationIn.amount_inr payload) now_update camp).
  split; [|split; reflexivity].
  destruct (format_x (next_oid s + 1)%N); simpl;
    by apply find_by_id_update_first.
Qed.

Lemma donation_raises_campaign_total_witness :
  referenced_campaign air_id seeded = Some air_campaign /\
  1 <= 1000 /\
  exists camp',
    referenced_campaign air_id
      (snd (create_donation bson_format 10 11 (donate air_id 1000) seeded))
    = Some camp' /\
    _id camp' = 3%N /\
    Campaign.raised_inr (fields camp') = 0 + 1000.
Proof.
  split; [reflexivity|]. split; [lia|].
  apply (donation_raises_campaign_total bson_format 10 11 (donate air_id 1000)
           seeded air_campaign); [reflexivity | simpl; lia].
Defined.



(** An identifier string with whitespace between its digit pairs is read
    (as fewer than 12 bytes): it is well-formed and matches no campaign. *)
Example donation_whitespace_reference :
  ObjectId_is_valid "00 00 00 00 00 00 00 00 " = true /\
  create_donation bson_format 10 11
    (donate "00 00 00 00 00 00 00 00 " 1000) seeded =
  (HTTPException 404 "Campaign not found", seeded).
Proof. split; reflexivity. Qed.

Example donation_unmatched_reference :
  create_donation bson_format 10 11
    (donate "0000000000000000000000ff" 1000) seeded =
  (HTTPException 404 "Campaign not found", seeded).
Proof. reflexivity. Qed.

(** With bson's formatting a donation that passed every check ends in an
    uncaught [TypeError] at the transaction hash: the donation is recorded
    and the total raised, and neither a Transaction nor a Receipt is
    written. *)
Lemma donation_type_error now_update now_issue payload s camp :
  referenced_campaign (DonationIn.campaign_id payload) s = Some camp ->
  1 <= DonationIn.amount_inr payload ->
  create_donation bson_format now_update now_issue payload s =
  (Uncaught (TypeError "unsupported format string passed to ObjectId.__format__"),
   after_increment now_update payload (_id camp) s).
Proof.
  intros Href Hamount. rewrite create_donation_unfold.
  unfold referenced_campaign in *.
  destruct (ObjectId_of (DonationIn.campaign_id payload)) as [oid|];
    [|discriminate].
  rewrite Href. apply Z.leb_le in Hamount. rewrite Hamount.
  unfold bson_format. by rewrite (find_by_id_id _ _ _ Href).
Qed.

(** No call of [POST /api/donations] succeeds, and none writes a Transaction
    or a Receipt. *)
Lemma donation_never_settles now_update now_issue payload s :
  (forall out,
      fst (create_donation bson_format now_update now_issue payload s)
      <> Return out) /\
  transaction (snd (create_donation bson_format now_update now_issue payload s))
  = transaction s /\
  receipt (snd (create_donation bson_format now_update now_issue payload s))
  = receipt s.
Proof.
  rewrite create_donation_unfold.
  destruct (ObjectId_of (DonationIn.campaign_id payload)) as [oid|].
  - destruct (find_by_id oid (campaign s)); [|by repeat split].
    destruct (1 <=? DonationIn.amount_inr payload); by repeat split.
  - destruct (ObjectId_is_valid (DonationIn.campaign_id payload));
      by repeat split.
Qed.

(** C3.  A donation of 1000 INR to the seeded Air campaign, valid in every
    respect: the call does not succeed.  It ends in an uncaught [TypeError]
    (status 500) at line 166, after the Donation was inserted and the total
    raised; no Transaction and no Receipt is created. *)
Theorem valid_donation_is_not_settled now_update now_issue :
  referenced_campaign air_id seeded = Some air_campaign /\
  exists s',
    serve bson_format (POST_donations (donate air_id 1000) now_update now_issue)
          seeded
    = (Uncaught (TypeError "unsupported format string passed to ObjectId.__format__"),
       s') /\
    status_code_of
      (fst (serve bson_format
              (POST_donations (donate air_id 1000) now_update now_issue) seeded))
    = 500 /\
    length (donation s') = 1%nat /\
    Campaign.raised_inr ∘ fields <$> referenced_campaign air_id s' = Some 1000 /\
    transaction s' = [] /\
    receipt s' = [].
Proof.
  split; [reflexivity|].
  assert (serve bson_format
            (POST_donations (donate air_id 1000) now_update now_issue) seeded
          = (Uncaught (TypeError "unsupported format string passed to ObjectId.__format__"),
             after_increment now_update (donate air_id 1000) 3%N seeded)) as E.
  { unfold serve, fmap_M, bind.
    by rewrite (donation_type_error now_update now_issue (donate air_id 1000)
                  seeded air_campaign). }
  eexists. split; [exact E|]. rewrite E. repeat split.
Qed.

(** A donation to an existing campaign whose amount is below 1 is stopped by
    the [Donation] schema inside the handler, before the first write; the
    exception is not an [HTTPException]. *)
Lemma donation_invalid_amount format_x now_update now_issue payload s camp :
  referenced_campaign (DonationIn.campaign_id payload) s = Some camp ->
  DonationIn.amount_inr payload < 1 ->
  create_donation format_x now_update now_issue payload s =
  (Uncaught (ValidationError "amount_inr: Input should be greater than or equal to 1"), s).
Proof.
  intros Href Hamount. rewrite create_donation_unfold.
  unfold referenced_campaign in *.
  destruct (ObjectId_of (DonationIn.campaign_id payload)) as [oid|];
    [|discriminate].
  rewrite Href. apply Z.leb_gt in Hamount. by rewrite Hamount.
Qed.

(** C7.  A donation of 0 INR to the seeded Air campaign: the store is left
    as it was, and the [ValidationError] leaves the handler uncaught, so the
    caller is answered 500, which is not a 4xx status. *)
Theorem zero_amount_donation_server_error format_x now_update now_issue :
  referenced_campaign air_id seeded = Some air_campaign /\
  serve format_x (POST_donations (donate air_id 0) now_update now_issue) seeded
  = (Uncaught (ValidationError "amount_inr: Input should be greater than or equal to 1"),
     seeded) /\
  status_code_of
    (fst (serve format_x (POST_donations (donate air_id 0) now_update now_issue)
            seeded)) = 500 /\
  is_4xx 500 = false.
Proof.
  assert (serve format_x (POST_donations (donate air_id 0) now_update now_issue)
            seeded
          = (Uncaught (ValidationError "amount_inr: Input should be greater than or equal to 1"),
             seeded)) as E.
  { unfold serve, fmap_M, bind.
    by rewrite (donation_invalid_amount format_x now_update now_issue
                  (donate air_id 0) seeded air_campaign). }
  split; [reflexivity|]. split; [exact E|]. split; [by rewrite E | reflexivity].
Qed.

(** ** Seeding *)

Lemma bind_Return {A B} (c : M A) (k : A -> M B) s a s' :
  c s = (Return a, s') -> bind c k s = k a s'.
Proof. unfold bind. by intros ->. Qed.

Lemma insert_one_ngo data s :
  insert_one (A := NGO.t) data s =
  (Return (next_oid s),
   mkStore (ngo s ++ [mkDoc (next_oid s) data None]) (campaign s) (donation s)
           (transaction s) (receipt s) (next_oid s + 1)%N).
Proof. reflexivity. Qed.

Lemma insert_one_campaign data s :
  insert_one (A := Campaign.t) data s =
  (Return (next_oid s),
   mkStore (ngo s) (campaign s ++ [mkDoc (next_oid s) data None]) (donation s)
           (transaction s) (receipt s) (next_oid s + 1)%N).
Proof. reflexivity. Qed.

Lemma seed_unfold s :
  seed s = (Return "ok", if ngo s is [] then seed_inserts s else s).
Proof.
  unfold seed.
  rewrite (bind_Return _ _ s (length (ngo s)) s) by reflexivity.
  destruct (ngo s) as [|x rest] eqn:E; [|reflexivity].
  simpl Nat.eqb. cbv iota.
  erewrite bind_Return; [reflexivity|].
  erewrite bind_Return by apply insert_one_ngo.
  erewrite bind_Return by apply insert_one_ngo.
  erewrite bind_Return by apply insert_one_ngo.
  cbn [ngo campaign donation transaction receipt next_oid].
  unfold insert_many.
  erewrite bind_Return; [reflexivity|].
  erewrite bind_Return by apply insert_one_campaign.
  erewrite bind_Return; [reflexivity|].
  erewrite bind_Return by apply insert_one_campaign.
  erewrite bind_Return; [reflexivity|].
  erewrite bind_Return by apply insert_one_campaign.
  cbn [ngo campaign donation transaction receipt next_oid].
  unfold ret at 1. unfold bind, ret. unfold seed_inserts. rewrite E.
  rewrite <- !app_assoc. simpl.
  rewrite <- !N.add_assoc. simpl. reflexivity.
Qed.

Lemma seed_leaves_ngos s : ngo (snd (seed s)) <> [].
Proof.
  rewrite seed_unfold. simpl. destruct (ngo s) eqn:E; simpl.
  - discriminate.
  - rewrite E. discriminate.
Qed.

(** C9.  [POST /api/seed] on a store whose NGO collection holds at least one
    document inserts nothing; hence seeding twice in a row leaves the store
    exactly as seeding once does. *)
Theorem seed_idempotent s :
  (ngo s <> [] -> seed s = (Return "ok", s)) /\
  seed (snd (seed s)) = (Return "ok", snd (seed s)).
Proof.
  assert (forall s0, ngo s0 <> [] -> seed s0 = (Return "ok", s0)) as Hfull.
  { intros s0 H. rewrite seed_unfold. by destruct (ngo s0). }
  split; [apply Hfull|]. apply Hfull, seed_leaves_ngos.
Qed.

Lemma seed_idempotent_witness :
  ngo seeded <> [] /\
  seed seeded = (Return "ok", seeded) /\
  seed (snd (seed empty_store)) = (Return "ok", snd (seed empty_store)).
Proof.
  split; [discriminate|]. split.
  - apply (proj1 (seed_idempotent seeded)). discriminate.
  - apply (proj2 (seed_idempotent empty_store)).
Defined.

(** ** The ledger *)

Lemma filter_no_filter {A} (l : list (Doc A)) : List.filter no_filter l = l.
Proof. induction l as [|x l IH]; simpl; [done | by rewrite IH]. Qed.

Lemma list_transactions_unfold limit s :
  list_transactions limit s =
  (Return (map (ledger_row (dict_by_id (donation s)) (dict_by_id (campaign s))
                           (dict_by_id (ngo s)))
               (rev (slice_from (- limit) (transaction s)))),
   s).
Proof.
  unfold list_transactions, get_documents, find_all, gets, bind, ret.
  simpl. by rewrite filter_no_filter.
Qed.

(** [l[-n:]] for a positive [n] is the last [n] elements of [l]. *)
Lemma slice_from_positive {A} (n : Z) (l : list A) :
  1 <= n -> slice_from (- n) l = drop (length l - Z.to_nat n) l.
Proof.
  intros Hn. unfold slice_from.
  destruct (- n <? 0) eqn:E; [|apply Z.ltb_ge in E; lia].
  f_equal. lia.
Qed.

(** [l[-0:]] is the whole of [l]. *)
Lemma slice_from_zero {A} (l : list A) : slice_from (- 0) l = l.
Proof.
  unfold slice_from. simpl. rewrite Z.min_l by lia. reflexivity.
Qed.

(** C6, amended.  For a limit of at least 1 the ledger holds at most that
    many rows: the last [limit] transactions in insertion order, the newest
    first. *)
Theorem list_transactions_positive_limit limit s :
  1 <= limit ->
  exists rows,
    list_transactions limit s = (Return rows, s) /\
    rows = map (ledger_row (dict_by_id (donation s)) (dict_by_id (campaign s))
                           (dict_by_id (ngo s)))
               (rev (drop (length (transaction s) - Z.to_nat limit)
                          (transaction s))) /\
    Z.of_nat (length rows) <= limit.
Proof.
  intros Hlimit. eexists. split; [apply list_transactions_unfold|].
  rewrite slice_from_positive by done. split; [reflexivity|].
  rewrite length_map, length_rev, length_drop. lia.
Qed.

Lemma list_transactions_positive_limit_witness :
  1 <= 1 /\
  exists rows,
    list_transactions 1 two_donations = (Return rows, two_donations) /\
    rows = map (ledger_row (dict_by_id (donation two_donations))
                           (dict_by_id (campaign two_donations))
                           (dict_by_id (ngo two_donations)))
               (rev (drop (length (transaction two_donations) - Z.to_nat 1)
                          (transaction two_donations))) /\
    Z.of_nat (length rows) <= 1.
Proof.
  split; [lia|].
  apply (list_transactions_positive_limit 1 two_donations). lia.
Defined.

(** C10.  With [limit = 0] the ledger holds every transaction of the store,
    the newest first: the slice [items[-0:]] is the whole list. *)
Theorem list_transactions_limit_zero s :
  list_transactions 0 s =
  (Return (map (ledger_row (dict_by_id (donation s)) (dict_by_id (campaign s))
                           (dict_by_id (ngo s)))
               (rev (transaction s))),
   s) /\
  slice_from (- 0) (transaction s) = transaction s.
Proof.
  split; [|apply slice_from_zero].
  rewrite list_transactions_unfold. by rewrite slice_from_zero.
Qed.

(** C6, as stated, fails: on a store with two transactions, [limit = 0] is
    answered with two rows, not with at most zero, and [limit = -1] with one
    row. *)
Lemma list_transactions_limit_not_a_cap :
  length (transaction two_donations) = 2%nat /\
  (exists rows,
      list_transactions 0 two_donations = (Return rows, two_donations) /\
      length rows = 2%nat /\ ~ Z.of_nat (length rows) <= 0) /\
  (exists rows,
      list_transactions (-1) two_donations = (Return rows, two_donations) /\
      length rows = 1%nat /\ ~ Z.of_nat (length rows) <= -1).
Proof.
  split; [reflexivity|].
  split; eexists; (split; [apply list_transactions_unfold|]);
    (split; [reflexivity | vm_compute; intros H; apply H; reflexivity]).
Qed.

(** ** The campaign total never goes down *)

Lemma campaign_change_refl s : campaign_change s s.
Proof. apply campaigns_appended with (extra := []); [by rewrite app_nil_r | constructor]. Qed.

Lemma fmap_M_store {A B} (f : A -> B) (c : M A) s :
  snd (fmap_M f c s) = snd (c s).
Proof. unfold fmap_M, bind, ret. by destruct (c s) as [[a| |] s']. Qed.

Lemma create_campaign_unfold c s :
  create_campaign c s =
  match referenced_ngo (Campaign.ngo_id c) s with
  | Some _ => (Return (oid_str (next_oid s)), with_new_campaign c s)
  | None => (HTTPException 400 "NGO not found", s)
  end.
Proof.
  unfold create_campaign, referenced_ngo, ObjectId_is_valid, ObjectId_from,
    ObjectId_of.
  destruct (ObjectId_read (Campaign.ngo_id c)) as [bs|]; [|reflexivity].
  unfold bind at 1, bind at 1, ret at 1, find_one_id.
  cbn [mbind option_bind].
  destruct (stored_id bs) as [oid|]; [|reflexivity].
  unfold find_one, gets.
  change (coll_get (A := NGO.t) s) with (ngo s).
  by destruct (find_by_id oid (ngo s)).
Qed.

Lemma create_campaign_change c s :
  Campaign.validate c = true ->
  campaign_change s (snd (create_campaign c s)).
Proof.
  intros Hvalid. rewrite create_campaign_unfold.
  destruct (referenced_ngo (Campaign.ngo_id c) s);
    [|apply campaign_change_refl].
  apply campaigns_appended with (extra := [mkDoc (next_oid s) c None]).
  - reflexivity.
  - constructor; [|constructor]. unfold raised_nonneg. simpl.
    unfold Campaign.validate in Hvalid.
    apply andb_true_iff in Hvalid as [_ H]. by apply Z.leb_le.
Qed.

Lemma create_donation_change format_x now_update now_issue payload s :
  campaign_change s (snd (create_donation format_x now_update now_issue payload s)).
Proof.
  rewrite create_donation_unfold.
  destruct (ObjectId_of (DonationIn.campaign_id payload)) as [oid|];
    [|apply campaign_change_refl].
  destruct (find_by_id oid (campaign s)); [|apply campaign_change_refl].
  destruct (1 <=? DonationIn.amount_inr payload) eqn:Hamount;
    [|apply campaign_change_refl].
  apply Z.leb_le in Hamount.
  destruct (format_x (next_oid s + 1)%N);
    apply campaign_raised
      with (oid := oid) (now := now_update)
           (d := mkDoc (next_oid s)
                   (Donation.mk (DonationIn.campaign_id payload)
                                (DonationIn.donor_name payload)
                                (DonationIn.amount_inr payload)
                                (DonationIn.payment_method payload)) None);
    solve [exact Hamount | reflexivity].
Qed.

Lemma seed_change s : campaign_change s (snd (seed s)).
Proof.
  rewrite seed_unfold. simpl.
  destruct (ngo s); [|apply campaign_change_refl].
  eapply campaigns_appended; [reflexivity|].
  repeat constructor; unfold raised_nonneg; simpl; lia.
Qed.

Lemma serve_campaign_change format_x r s :
  campaign_change s (snd (serve format_x r s)).
Proof.
  destruct r; unfold serve; try rewrite fmap_M_store;
    try apply campaign_change_refl.
  - apply seed_change.
  - apply campaigns_appended with (extra := []);
      [by rewrite app_nil_r | constructor].
  - destruct (Campaign.validate body) eqn:Hvalid.
    + rewrite fmap_M_store. by apply create_campaign_change.
    + apply campaign_change_refl.
  - apply create_donation_change.
Qed.

Lemma update_first_nonneg oid amount now docs :
  1 <= amount ->
  Forall raised_nonneg docs ->
  Forall raised_nonneg
    (update_first oid (inc_raised_set_updated amount now) docs).
Proof.
  intros Hamount. induction 1 as [|x rest Hx Hrest IH]; simpl; [constructor|].
  destruct (N.eqb (_id x) oid); constructor; auto.
  unfold raised_nonneg in *. rewrite inc_raised_value. lia.
Qed.

(** In every store the API can bring about, no campaign total is negative. *)
Lemma reachable_raised_nonneg format_x s :
  reachable format_x s -> Forall raised_nonneg (campaign s).
Proof.
  induction 1 as [|r s Hs IH]; [constructor|].
  destruct (serve_campaign_change format_x r s) as [extra -> Hextra|oid now d Hd -> _].
  - apply Forall_app; auto.
  - by apply update_first_nonneg.
Qed.

(** C8.  Take a store the API can bring about, any campaign record in it and
    any request.  After the request the record is still in its place, and
    its [raised_inr] is what it was, or what it was plus the [amount_inr]
    (at least 1) of the donation the request recorded; before and after, it
    is at least 0. *)
Theorem raised_inr_never_decreases format_x r s (i : nat) c :
  reachable format_x s ->
  campaign s !! i = Some c ->
  exists c',
    campaign (snd (serve format_x r s)) !! i = Some c' /\
    _id c' = _id c /\
    0 <= Campaign.raised_inr (fields c) /\
    Campaign.raised_inr (fields c) <= Campaign.raised_inr (fields c') /\
    (Campaign.raised_inr (fields c') = Campaign.raised_inr (fields c) \/
     exists d,
       donation (snd (serve format_x r s)) = (donation s ++ [d])%list /\
       1 <= Donation.amount_inr (fields d) /\
       Campaign.raised_inr (fields c')
       = Campaign.raised_inr (fields c) + Donation.amount_inr (fields d)).
Proof.
  intros Hreach Hc.
  assert (0 <= Campaign.raised_inr (fields c)) as Hnonneg.
  { apply reachable_raised_nonneg in Hreach.
    rewrite Forall_lookup in Hreach. exact (Hreach i c Hc). }
  destruct (serve_campaign_change format_x r s)
    as [extra Hcamp _|oid now d Hd Hcamp Hdon].
  - exists c. rewrite Hcamp, lookup_app_l by (by eapply lookup_lt_Some).
    repeat split; auto; lia.
  - rewrite Hcamp.
    destruct (update_first_lookup oid
                (inc_raised_set_updated (Donation.amount_inr (fields d)) now)
                (campaign s) i c Hc) as [E|E]; rewrite E.
    + exists c. repeat split; auto; lia.
    + eexists. split; [reflexivity|]. rewrite inc_raised_value.
      repeat split; auto; try lia. right. exists d. auto.
Qed.

Lemma reachable_run format_x rs s :
  reachable format_x s -> reachable format_x (run format_x rs s).
Proof.
  revert s. induction rs as [|r rs IH]; intros s Hs; simpl; [done|].
  apply IH. by constructor.
Qed.

Lemma raised_inr_never_decreases_witness :
  reachable bson_format seeded /\
  campaign seeded !! 0%nat = Some air_campaign /\
  exists c',
    campaign (snd (serve bson_format (POST_donations (donate air_id 1000) 10 11)
                     seeded)) !! 0%nat = Some c' /\
    _id c' = _id air_campaign /\
    0 <= Campaign.raised_inr (fields air_campaign) /\
    Campaign.raised_inr (fields air_campaign) <= Campaign.raised_inr (fields c') /\
    (Campaign.raised_inr (fields c') = Campaign.raised_inr (fields air_campaign) \/
     exists d,
       donation (snd (serve bson_format
                        (POST_donations (donate air_id 1000) 10 11) seeded))
       = (donation seeded ++ [d])%list /\
       1 <= Donation.amount_inr (fields d) /\
       Campaign.raised_inr (fields c')
       = Campaign.raised_inr (fields air_campaign)
         + Donation.amount_inr (fields d)).
Proof.
  assert (reachable bson_format seeded) as Hreach.
  { apply (reachable_serve bson_format POST_seed empty_store), reachable_empty. }
  split; [exact Hreach|]. split; [reflexivity|].
  apply (raised_inr_never_decreases bson_format
           (POST_donations (donate air_id 1000) 10 11) seeded 0 air_campaign);
    [exact Hreach | reflexivity].
Defined.

(** ** Ordered dictionaries and grouped sums *)

Lemma Zsum_Permutation l1 l2 : l1 ≡ₚ l2 -> Zsum l1 = Zsum l2.
Proof. induction 1; simpl; lia. Qed.

Lemma odict_get_app {V} k (d : odict V) k' v :
  odict_get k (d ++ [(k', v)]) =
  match odict_get k d with
  | Some w => Some w
  | None => if String.eqb k' k then Some v else None
  end.
Proof.
  induction d as [|[k0 w0] d IH]; simpl; [done|].
  by destruct (String.eqb k0 k).
Qed.

Lemma odict_get_add k' k v d :
  odict_get k' (odict_add k v d) =
  (fun w => if String.eqb k k' then w + v else w) <$> odict_get k' d.
Proof.
  induction d as [|[k0 w0] d IH]; simpl; [done|].
  destruct (String.eqb_spec k0 k) as [->|Hne]; simpl.
  - destruct (String.eqb_spec k k') as [->|Hne']; simpl; [done|].
    destruct (odict_get k' d); simpl; done.
  - destruct (String.eqb_spec k0 k') as [->|Hne']; simpl; [|exact IH].
    by rewrite (proj2 (String.eqb_neq k k')) by congruence.
Qed.

Lemma odict_get_accum k' k v d :
  odict_get k' (odict_accum k v d) =
  if String.eqb k k' then Some (default 0 (odict_get k d) + v)
  else odict_get k' d.
Proof.
  unfold odict_accum, odict_setdefault. rewrite odict_get_add.
  destruct (String.eqb_spec k k') as [<-|Hne].
  - destruct (odict_get k d) as [w|] eqn:E; simpl.
    + by rewrite E.
    + by rewrite odict_get_app, E, String.eqb_refl.
  - destruct (odict_get k d) as [w|] eqn:E.
    + by destruct (odict_get k' d).
    + rewrite odict_get_app.
      rewrite (proj2 (String.eqb_neq k k')) by done.
      by destruct (odict_get k' d).
Qed.

Lemma odict_get_accumulate k events d :
  odict_get k (accumulate events d) =
  match odict_get k d with
  | Some w => Some (w + key_sum k events)
  | None => if has_key k events then Some (key_sum k events) else None
  end.
Proof.
  revert d. induction events as [|[k0 v0] events IH]; intros d.
  - simpl. destruct (odict_get k d); [f_equal; unfold key_sum; simpl; lia|done].
  - unfold accumulate in *. simpl foldl. rewrite IH, odict_get_accum.
    unfold key_sum, has_key. simpl.
    destruct (String.eqb_spec k0 k) as [->|Hne]; simpl.
    + destruct (odict_get k d); simpl; f_equal; lia.
    + done.
Qed.

Lemma odict_get_None {V} k (d : odict V) :
  odict_get k d = None <-> k ∉ d.*1.
Proof.
  induction d as [|[k0 w0] d IH]; simpl.
  - split; [intros _; apply not_elem_of_nil | done].
  - rewrite not_elem_of_cons.
    destruct (String.eqb_spec k0 k) as [->|Hne].
    + split; [discriminate | intros [? _]; done].
    + rewrite IH. split; [intros ?; split; [congruence | done] | intros [_ ?]; done].
Qed.

Lemma odict_get_Some_elem {V} k v (d : odict V) :
  odict_get k d = Some v -> (k, v) ∈ d.
Proof.
  induction d as [|[k0 w0] d IH]; simpl; [discriminate|].
  destruct (String.eqb_spec k0 k) as [->|Hne].
  - intros [= ->]. apply list_elem_of_here.
  - intros H. apply list_elem_of_further. auto.
Qed.

Lemma odict_elem_get {V} k v (d : odict V) :
  NoDup d.*1 -> (k, v) ∈ d -> odict_get k d = Some v.
Proof.
  induction d as [|[k0 w0] d IH]; simpl.
  - intros _ H. by apply elem_of_nil in H.
  - rewrite NoDup_cons. intros [Hfresh Hd] Hin.
    apply elem_of_cons in Hin as [[= -> ->]|Hin].
    + by rewrite String.eqb_refl.
    + destruct (String.eqb_spec k0 k) as [->|Hne]; [|auto].
      exfalso. apply Hfresh. apply list_elem_of_fmap. by exists (k, v).
Qed.

Lemma odict_add_keys k v d : (odict_add k v d).*1 = d.*1.
Proof.
  induction d as [|[k0 w0] d IH]; simpl; [done|].
  destruct (String.eqb k0 k); simpl; [done | by f_equal].
Qed.

Lemma odict_accum_NoDup k v d : NoDup d.*1 -> NoDup (odict_accum k v d).*1.
Proof.
  intros Hd. unfold odict_accum, odict_setdefault. rewrite odict_add_keys.
  destruct (odict_get k d) eqn:E; [done|].
  rewrite fmap_app. simpl. apply NoDup_app. split; [done|].
  split; [|apply NoDup_singleton].
  intros x Hx ->%list_elem_of_singleton. by apply odict_get_None in E.
Qed.

Lemma accumulate_NoDup events d : NoDup d.*1 -> NoDup (accumulate events d).*1.
Proof.
  revert d. induction events as [|e events IH]; intros d Hd; [done|].
  apply IH. by apply odict_accum_NoDup.
Qed.

Lemma has_key_elem k events : has_key k events = true <-> k ∈ events.*1.
Proof.
  unfold has_key. rewrite existsb_exists, list_elem_of_fmap.
  split.
  - intros ([k0 v] & Hin & Heq). simpl in Heq.
    apply String.eqb_eq in Heq as ->. exists (k, v).
    split; [done | by apply list_elem_of_In].
  - intros ([k0 v] & -> & Hin). exists (k0, v).
    split; [by apply list_elem_of_In | apply String.eqb_refl].
Qed.

(** ** Sorting by points *)

Lemma insert_desc_Permutation {K} (x : K * Z) l : insert_desc x l ≡ₚ x :: l.
Proof.
  induction l as [|y rest IH]; simpl; [done|].
  destruct (snd x <? snd y); [|done].
  rewrite IH. apply perm_swap.
Qed.

Lemma sorted_desc_Permutation {K} (l : list (K * Z)) : sorted_desc l ≡ₚ l.
Proof.
  induction l as [|x rest IH]; simpl; [done|].
  rewrite insert_desc_Permutation. by constructor.
Qed.

Lemma insert_desc_sorted {K} (x : K * Z) l :
  StronglySorted points_ge l -> StronglySorted points_ge (insert_desc x l).
Proof.
  induction 1 as [|y rest Hrest IH Hy]; simpl.
  - repeat constructor.
  - destruct (snd x <? snd y) eqn:E.
    + apply Z.ltb_lt in E. constructor; [exact IH|].
      rewrite insert_desc_Permutation. constructor; [|exact Hy].
      unfold points_ge. lia.
    + apply Z.ltb_ge in E. constructor; [by constructor|].
      constructor; [exact E|].
      eapply Forall_impl; [exact Hy|].
      unfold points_ge. intros z Hz. simpl in Hz. lia.
Qed.

Lemma sorted_desc_sorted {K} (l : list (K * Z)) :
  StronglySorted points_ge (sorted_desc l).
Proof.
  induction l as [|x rest IH]; simpl; [constructor|].
  by apply insert_desc_sorted.
Qed.

(** ** The leaderboard *)

Lemma aggregate_group_accumulate docs :
  aggregate_group docs = accumulate (donation_events docs) [].
Proof.
  unfold aggregate_group, accumulate, donation_events.
  generalize (@nil (string * Z)).
  induction docs as [|d docs IH]; intros acc; simpl; [done|].
  apply IH.
Qed.

Lemma award_accumulate camp_map agg d :
  foldl (award camp_map) d agg = accumulate (omap (resolve camp_map) agg) d.
Proof.
  revert d. induction agg as [|row agg IH]; intros d; simpl; [done|].
  rewrite IH. unfold award, resolve.
  by destruct (camp_map !! fst row).
Qed.

Lemma key_sum_donation_events docs k :
  key_sum k (donation_events docs) = campaign_total docs k.
Proof.
  unfold key_sum, campaign_total, donation_events.
  induction docs as [|d docs IH]; simpl; [done|].
  destruct (String.eqb (Donation.campaign_id (fields d)) k); simpl; [|done].
  f_equal. exact IH.
Qed.

Lemma donation_events_keys docs :
  (donation_events docs).*1 = map (fun d => Donation.campaign_id (fields d)) docs.
Proof.
  unfold donation_events. induction docs as [|d docs IH]; simpl; [done|].
  by f_equal.
Qed.

Lemma aggregate_group_get docs k :
  odict_get k (aggregate_group docs) =
  if has_key k (donation_events docs) then Some (campaign_total docs k)
  else None.
Proof.
  rewrite aggregate_group_accumulate, odict_get_accumulate. simpl.
  by rewrite key_sum_donation_events.
Qed.

Lemma aggregate_group_NoDup docs : NoDup (aggregate_group docs).*1.
Proof.
  rewrite aggregate_group_accumulate. apply accumulate_NoDup. constructor.
Qed.

(** The aggregation has one row per donated campaign, with its total. *)
Lemma aggregate_group_rows docs :
  aggregate_group docs ≡ₚ
  map (fun k => (k, campaign_total docs k)) (donated_campaigns docs).
Proof.
  apply NoDup_Permutation.
  - apply (NoDup_fmap_1 fst), aggregate_group_NoDup.
  - apply NoDup_fmap_2; [by intros k1 k2 [= ->] | apply NoDup_remove_dups].
  - intros [k v]. rewrite list_elem_of_fmap. unfold donated_campaigns.
    split.
    + intros Hin. apply odict_elem_get in Hin; [|apply aggregate_group_NoDup].
      rewrite aggregate_group_get in Hin.
      destruct (has_key k (donation_events docs)) eqn:E; [|discriminate].
      injection Hin as <-. exists k. split; [done|].
      apply elem_of_remove_dups. rewrite <- donation_events_keys.
      by apply has_key_elem.
    + intros (k' & [= -> ->] & Hin). apply odict_get_Some_elem.
      rewrite aggregate_group_get.
      apply (proj1 (elem_of_remove_dups _ _)) in Hin.
      rewrite <- donation_events_keys in Hin.
      apply has_key_elem in Hin. by rewrite Hin.
Qed.

Lemma Zsum_map_filter {A} (p : A -> bool) (g : A -> Z) l :
  Zsum (map (fun x => if p x then g x else 0) l) = Zsum (map g (List.filter p l)).
Proof.
  induction l as [|x l IH]; simpl; [done|].
  destruct (p x); simpl; lia.
Qed.

Lemma key_sum_resolve camp_map n agg :
  key_sum n (omap (resolve camp_map) agg) =
  Zsum (map (fun row => if owned_by camp_map n (fst row)
                        then snd row `div` 100 else 0) agg).
Proof.
  unfold key_sum.
  induction agg as [|row agg IH]; simpl; [done|].
  unfold resolve at 1, owned_by at 1.
  destruct (camp_map !! fst row) as [camp|]; simpl; [|exact IH].
  destruct (String.eqb (Campaign.ngo_id (fields camp)) n); simpl;
    [f_equal|]; exact IH.
Qed.

Lemma ngo_points_of_accumulate s :
  ngo_points_of s = accumulate (award_events s) [].
Proof. unfold ngo_points_of. apply award_accumulate. Qed.

Lemma award_events_sum s n :
  key_sum n (award_events s) = points_by_campaign s n.
Proof.
  unfold award_events, points_by_campaign. rewrite key_sum_resolve.
  rewrite (Zsum_Permutation _ _
             (fmap_Permutation _ _ _ (aggregate_group_rows (donation s)))).
  change (@fmap list _) with (@map).
  rewrite map_map. simpl. apply Zsum_map_filter.
Qed.

Lemma ngo_points_get s n :
  odict_get n (ngo_points_of s) =
  if has_key n (award_events s) then Some (points_by_campaign s n) else None.
Proof.
  rewrite ngo_points_of_accumulate, odict_get_accumulate. simpl.
  by rewrite award_events_sum.
Qed.

Lemma ngo_points_NoDup s : NoDup (ngo_points_of s).*1.
Proof.
  rewrite ngo_points_of_accumulate. apply accumulate_NoDup. constructor.
Qed.

Lemma leaderboard_unfold s :
  leaderboard s =
  (Return (map (fun kv => mkLeaderboardItem
                            (entity_name (dict_by_id (ngo s)) (fst kv)) (snd kv))
               (leaderboard_ranking s)),
   s).
Proof. reflexivity. Qed.

(** An NGO is awarded points exactly when some donation refers to a campaign
    that the campaign map resolves and that names the NGO. *)
Lemma award_events_key s n :
  n ∈ (award_events s).*1 <->
  exists d camp,
    d ∈ donation s /\
    dict_by_id (campaign s) !! Donation.campaign_id (fields d) = Some camp /\
    Campaign.ngo_id (fields camp) = n.
Proof.
  unfold award_events. rewrite list_elem_of_fmap. split.
  - intros ([n' pts] & -> & Hin). simpl.
    apply list_elem_of_omap in Hin as ([k total] & Hrow & Hres).
    unfold resolve in Hres. simpl in Hres.
    destruct (dict_by_id (campaign s) !! k) as [camp|] eqn:Hcamp;
      [|discriminate].
    simpl in Hres. injection Hres as <- _.
    assert (k ∈ (aggregate_group (donation s)).*1) as Hk.
    { apply list_elem_of_fmap. by exists (k, total). }
    assert (has_key k (donation_events (donation s)) = true) as Hkey.
    { destruct (has_key k (donation_events (donation s))) eqn:E; [done|].
      exfalso. revert Hk. apply odict_get_None.
      by rewrite aggregate_group_get, E. }
    apply has_key_elem in Hkey. rewrite donation_events_keys in Hkey.
    apply list_elem_of_fmap in Hkey as (d & -> & Hd).
    by exists d, camp.
  - intros (d & camp & Hd & Hcamp & <-).
    set (k := Donation.campaign_id (fields d)) in *.
    assert (has_key k (donation_events (donation s)) = true) as Hkey.
    { apply has_key_elem. rewrite donation_events_keys.
      apply list_elem_of_fmap. by exists d. }
    exists (Campaign.ngo_id (fields camp),
            campaign_total (donation s) k `div` 100).
    split; [done|]. apply list_elem_of_omap.
    exists (k, campaign_total (donation s) k). split.
    + apply odict_get_Some_elem. by rewrite aggregate_group_get, Hkey.
    + unfold resolve. simpl. by rewrite Hcamp.
Qed.

Lemma ranking_keys s n :
  n ∈ (leaderboard_ranking s).*1 <-> n ∈ (award_events s).*1.
Proof.
  unfold leaderboard_ranking.
  rewrite (sorted_desc_Permutation (ngo_points_of s)).
  rewrite <- (has_key_elem n (award_events s)).
  pose proof (odict_get_None n (ngo_points_of s)) as Hnone.
  rewrite ngo_points_get in Hnone.
  destruct (has_key n (award_events s)).
  - split; [done|]. intros _.
    destruct (decide (n ∈ (ngo_points_of s).*1)) as [?|Hnot]; [done|].
    apply Hnone in Hnot. discriminate.
  - split; [|discriminate]. intros Hin. exfalso. by apply Hnone.
Qed.

Example two_campaigns_ranking :
  leaderboard_ranking two_campaigns = [(aranya_id, 0)].
Proof. vm_compute. reflexivity. Qed.

Example fifty_ranking : leaderboard_ranking fifty = [(aranya_id, 0)].
Proof. vm_compute. reflexivity. Qed.

(** The scenario of the specification: 1000 INR to the Air campaign. *)
Example thousand_leaderboard :
  fst (leaderboard
         (run bson_format [POST_seed; POST_donations (donate air_id 1000) 10 11]
              empty_store))
  = Return [mkLeaderboardItem "Aranya Eco Foundation" 10].
Proof. vm_compute. reflexivity. Qed.

(** C4, as stated, fails: with 50 INR given to each of two campaigns of one
    NGO, the total is 100 INR, a hundredth of which is 1, yet the leaderboard
    lists the NGO with 0 points. *)
Lemma leaderboard_points_not_of_total :
  exists n pts,
    (n, pts) ∈ leaderboard_ranking two_campaigns /\
    fst (leaderboard two_campaigns)
    = Return [mkLeaderboardItem "Aranya Eco Foundation" pts] /\
    points_of_total two_campaigns n = 1 /\
    pts <> points_of_total two_campaigns n.
Proof.
  exists aranya_id, 0. split.
  - rewrite two_campaigns_ranking. apply list_elem_of_here.
  - split; [vm_compute; reflexivity|].
    split; [vm_compute; reflexivity|].
    vm_compute. discriminate.
Qed.

(** C4, amended.  The leaderboard is the ranking with display names, and the
    [eco_points] of every NGO in it is the sum, over the campaign references
    that occur in the donations and resolve to a campaign of that NGO, of
    the floor of a hundredth of the total donated under that reference. *)
Theorem leaderboard_points_by_campaign s n pts :
  (n, pts) ∈ leaderboard_ranking s ->
  leaderboard s =
    (Return (map (fun kv => mkLeaderboardItem
                              (entity_name (dict_by_id (ngo s)) (fst kv))
                              (snd kv))
                 (leaderboard_ranking s)), s) /\
  pts = points_by_campaign s n.
Proof.
  intros Hin. split; [apply leaderboard_unfold|].
  unfold leaderboard_ranking in Hin.
  rewrite (sorted_desc_Permutation (ngo_points_of s)) in Hin.
  apply odict_elem_get in Hin; [|apply ngo_points_NoDup].
  rewrite ngo_points_get in Hin.
  destruct (has_key n (award_events s)); [|discriminate].
  by injection Hin.
Qed.

Lemma leaderboard_points_by_campaign_witness :
  (aranya_id, 0) ∈ leaderboard_ranking two_campaigns /\
  leaderboard two_campaigns =
    (Return (map (fun kv => mkLeaderboardItem
                              (entity_name (dict_by_id (ngo two_campaigns))
                                           (fst kv))
                              (snd kv))
                 (leaderboard_ranking two_campaigns)), two_campaigns) /\
  0 = points_by_campaign two_campaigns aranya_id.
Proof.
  assert ((aranya_id, 0) ∈ leaderboard_ranking two_campaigns) as Hin.
  { rewrite two_campaigns_ranking. apply list_elem_of_here. }
  split; [exact Hin|].
  apply (leaderboard_points_by_campaign two_campaigns aranya_id 0 Hin).
Defined.

(** C5, as stated, fails: after a single donation of 50 INR the NGO has no
    point-earning campaign, and the leaderboard lists it, with 0 points. *)
Lemma zero_point_ngo_is_listed :
  exists n,
    n ∈ (leaderboard_ranking fifty).*1 /\
    points_by_campaign fifty n = 0 /\
    fst (leaderboard fifty)
    = Return [mkLeaderboardItem "Aranya Eco Foundation" 0].
Proof.
  exists aranya_id. split.
  - rewrite fifty_ranking. apply list_elem_of_here.
  - split; vm_compute; reflexivity.
Qed.

(** C5, amended.  An NGO is listed, once, exactly when some donation refers
    to a campaign that resolves and names it, whatever its points (an NGO
    whose donated campaigns earn nothing is listed with 0); an NGO without
    such a donation is not listed; the rows come by descending points. *)
Theorem leaderboard_lists_awarded_ngos s :
  leaderboard s =
    (Return (map (fun kv => mkLeaderboardItem
                              (entity_name (dict_by_id (ngo s)) (fst kv))
                              (snd kv))
                 (leaderboard_ranking s)), s) /\
  (forall n,
      n ∈ (leaderboard_ranking s).*1 <->
      exists d camp,
        d ∈ donation s /\
        dict_by_id (campaign s) !! Donation.campaign_id (fields d) = Some camp /\
        Campaign.ngo_id (fields camp) = n) /\
  NoDup (leaderboard_ranking s).*1 /\
  StronglySorted points_ge (leaderboard_ranking s).
Proof.
  split; [apply leaderboard_unfold|]. split; [|split].
  - intros n. rewrite ranking_keys. apply award_events_key.
  - unfold leaderboard_ranking.
    rewrite (sorted_desc_Permutation (ngo_points_of s)).
    apply ngo_points_NoDup.
  - apply sorted_desc_sorted.
Qed.

Lemma leaderboard_lists_awarded_ngos_witness :
  aranya_id ∈ (leaderboard_ranking fifty).*1 /\
  exists d camp,
    d ∈ donation fifty /\
    dict_by_id (campaign fifty) !! Donation.campaign_id (fields d) = Some camp /\
    Campaign.ngo_id (fields camp) = aranya_id.
Proof.
  assert (aranya_id ∈ (leaderboard_ranking fifty).*1) as Hin.
  { rewrite fifty_ranking. apply list_elem_of_here. }
  split; [exact Hin|].
  apply (proj1 (proj1 (proj2 (leaderboard_lists_awarded_ngos fifty)) aranya_id)).
  exact Hin.
Defined.

(** * Further properties of the handlers *)

(** ** Creating NGOs and campaigns *)

Lemma fmap_M_run {A B} (f : A -> B) (c : M A) s :
  fmap_M f c s =
  match c s with
  | (Return a, s') => (Return (f a), s')
  | (HTTPException code d, s') => (HTTPException code d, s')
  | (Uncaught e, s') => (Uncaught e, s')
  end.
Proof. unfold fmap_M, bind, ret. by destruct (c s) as [[a| |] s']. Qed.

Lemma create_ngo_unfold data s :
  create_ngo data s = (Return (oid_str (next_oid s)), with_new_ngo data s).
Proof. reflexivity. Qed.


(** X1.  [POST /api/campaigns] with an [ngo_id] that is malformed or that no
    NGO carries is answered 400 "NGO not found" and writes nothing. *)
Theorem create_campaign_unknown_ngo c s :
  referenced_ngo (Campaign.ngo_id c) s = None ->
  create_campaign c s = (HTTPException 400 "NGO not found", s).
Proof. intros H. by rewrite create_campaign_unfold, H. Qed.

Lemma create_campaign_unknown_ngo_witness :
  referenced_ngo "KA-REG-001" seeded = None /\
  create_campaign
    (Campaign.mk "Air: Schoolyard Saplings" "KA-REG-001" "Air" 100000 0
                 None None None None) seeded
  = (HTTPException 400 "NGO not found", seeded).
Proof.
  split; [reflexivity|].
  apply (create_campaign_unknown_ngo
           (Campaign.mk "Air: Schoolyard Saplings" "KA-REG-001" "Air" 100000 0
                        None None None None) seeded).
  reflexivity.
Defined.

(** X2.  [POST /api/campaigns] with an [ngo_id] that designates an NGO appends
    exactly one campaign, which carries the fields of the body as they were
    sent (the caller's [raised_inr] included); the answer is the identifier
    of that campaign, and no other collection changes. *)
Theorem create_campaign_appends c s n :
  referenced_ngo (Campaign.ngo_id c) s = Some n ->
  exists new_id s' doc,
    create_campaign c s = (Return new_id, s') /\
    campaign s' = campaign s ++ [doc] /\
    fields doc = c /\
    new_id = oid_str (_id doc) /\
    ngo s' = ngo s /\ donation s' = donation s /\
    transaction s' = transaction s /\ receipt s' = receipt s.
Proof.
  intros H. rewrite create_campaign_unfold, H.
  exists (oid_str (next_oid s)), (with_new_campaign c s),
         (mkDoc (next_oid s) c None).
  repeat split.
Qed.

Lemma create_campaign_appends_witness :
  referenced_ngo aranya_id seeded
  = Some (mkDoc 0%N (seed_ngo "Aranya Eco Foundation" "KA-REG-001" "Air") None) /\
  exists new_id s' doc,
    create_campaign
      (Campaign.mk "Air: Schoolyard Saplings" aranya_id "Air" 100000 75
                   None None None None) seeded = (Return new_id, s') /\
    campaign s' = campaign seeded ++ [doc] /\
    fields doc = Campaign.mk "Air: Schoolyard Saplings" aranya_id "Air" 100000 75
                             None None None None /\
    new_id = oid_str (_id doc) /\
    ngo s' = ngo seeded /\ donation s' = donation seeded /\
    transaction s' = transaction seeded /\ receipt s' = receipt seeded.
Proof.
  split; [reflexivity|].
  apply (create_campaign_appends
           (Campaign.mk "Air: Schoolyard Saplings" aranya_id "Air" 100000 75
                        None None None None)
           seeded
           (mkDoc 0%N (seed_ngo "Aranya Eco Foundation" "KA-REG-001" "Air") None)).
  reflexivity.
Defined.

(** ** Requests without effect *)

Lemma list_ngos_run s : list_ngos s = (Return (map serialize (ngo s)), s).
Proof.
  unfold list_ngos, get_documents, gets, bind, ret. simpl.
  by rewrite filter_no_filter.
Qed.

Lemma list_donations_run s :
  list_donations s = (Return (map serialize (donation s)), s).
Proof.
  unfold list_donations, get_documents, gets, bind, ret. simpl.
  by rewrite filter_no_filter.
Qed.

Lemma list_campaigns_store domain s :
  exists rows, list_campaigns domain s = (Return rows, s).
Proof.
  unfold list_campaigns, get_documents, find_all, gets, bind, ret.
  eexists. reflexivity.
Qed.

(** A [GET] request is answered with a body and leaves the store as it is. *)
Lemma GET_run format_x r s :
  is_GET r = true -> exists body, serve format_x r s = (Return body, s).
Proof.
  destruct r; try discriminate; intros _; unfold serve; rewrite fmap_M_run.
  - eexists; reflexivity.
  - eexists; reflexivity.
  - rewrite list_ngos_run. eauto.
  - destruct (list_campaigns_store domain s) as [rows ->]. eauto.
  - rewrite list_donations_run. eauto.
  - rewrite list_transactions_unfold. eauto.
  - rewrite leaderboard_unfold. eauto.
Qed.

(** X3.  A request that is answered with an [HTTPException] (400, 404 or
    422) has written nothing: the store is as it was before the request. *)
Theorem http_error_writes_nothing format_x r s code detail s' :
  serve format_x r s = (HTTPException code detail, s') -> s' = s.
Proof.
  destruct (is_GET r) eqn:Hget.
  { destruct (GET_run format_x r s Hget) as [body ->]. discriminate. }
  destruct r; try discriminate; unfold serve.
  - rewrite fmap_M_run, seed_unfold. discriminate.
  - destruct (Campaign.validate body).
    + rewrite fmap_M_run, create_campaign_unfold.
      destruct (referenced_ngo (Campaign.ngo_id body) s); [discriminate|].
      by intros [= _ _ <-].
    + unfold raise_http. by intros [= _ _ <-].
  - rewrite fmap_M_run, create_donation_unfold.
    destruct (ObjectId_of (DonationIn.campaign_id body)) as [oid|];
      [|destruct (ObjectId_is_valid (DonationIn.campaign_id body));
        by intros [= _ _ <-]].
    destruct (find_by_id oid (campaign s)); [|by intros [= _ _ <-]].
    destruct (1 <=? DonationIn.amount_inr body); [|discriminate].
    destruct (format_x (next_oid s + 1)%N); discriminate.
Qed.

Lemma http_error_writes_nothing_witness :
  serve bson_format
    (POST_campaigns (Campaign.mk "No goal" aranya_id "Air" 0 0
                                 None None None None)) seeded
  = (HTTPException 422 "Unprocessable Entity", seeded) /\
  seeded = seeded.
Proof.
  split; [reflexivity|].
  apply (http_error_writes_nothing bson_format
           (POST_campaigns (Campaign.mk "No goal" aranya_id "Air" 0 0
                                        None None None None))
           seeded 422 "Unprocessable Entity" seeded).
  reflexivity.
Defined.

(** X4.  A [GET] request never fails and never writes: whatever the store,
    the [domain] filter or the [limit], it is answered with a body and the
    store is as it was. *)
Theorem GET_requests_are_pure format_x r s :
  is_GET r = true ->
  exists body,
    serve format_x r s = (Return body, s) /\
    status_code_of (fst (serve format_x r s)) = 200.
Proof.
  intros Hget. destruct (GET_run format_x r s Hget) as [body E].
  exists body. by rewrite E.
Qed.

Lemma GET_requests_are_pure_witness :
  is_GET (GET_transactions (Some (-3))) = true /\
  exists body,
    serve bson_format (GET_transactions (Some (-3))) two_donations
    = (Return body, two_donations) /\
    status_code_of
      (fst (serve bson_format (GET_transactions (Some (-3))) two_donations))
    = 200.
Proof.
  split; [reflexivity|].
  apply (GET_requests_are_pure bson_format (GET_transactions (Some (-3)))
           two_donations).
  reflexivity.
Defined.

(** ** More on the donation workflow *)

Lemma update_first_other {A} oid (u : Doc A -> Doc A) docs (i : nat) x :
  _id x <> oid -> docs !! i = Some x -> update_first oid u docs !! i = Some x.
Proof.
  intros Hx. revert i. induction docs as [|y rest IH]; intros i; simpl; [done|].
  destruct (N.eqb_spec (_id y) oid) as [E|E]; destruct i as [|i]; simpl; auto.
  intros [= ->]. done.
Qed.

Lemma create_donation_campaigns format_x now_update now_issue payload s :
  let s' := snd (create_donation format_x now_update now_issue payload s) in
  ngo s' = ngo s /\
  (campaign s' = campaign s \/
   exists oid,
     ObjectId_of (DonationIn.campaign_id payload) = Some oid /\
     campaign s' =
       update_first oid
         (inc_raised_set_updated (DonationIn.amount_inr payload) now_update)
         (campaign s)).
Proof.
  simpl. rewrite create_donation_unfold.
  destruct (ObjectId_of (DonationIn.campaign_id payload)) as [oid|]; [|auto].
  destruct (find_by_id oid (campaign s)); [|auto].
  destruct (1 <=? DonationIn.amount_inr payload); [|auto].
  destruct (format_x (next_oid s + 1)%N); simpl; eauto.
Qed.

(** X5.  A donation touches no NGO and no campaign but the one its
    [campaign_id] designates: every campaign document with another [_id]
    is, in its place, exactly as before, whatever the outcome of the call. *)
Theorem donation_leaves_other_campaigns format_x now_update now_issue payload s
    (i : nat) c :
  campaign s !! i = Some c ->
  ObjectId_of (DonationIn.campaign_id payload) <> Some (_id c) ->
  campaign (snd (create_donation format_x now_update now_issue payload s)) !! i
  = Some c /\
  ngo (snd (create_donation format_x now_update now_issue payload s)) = ngo s.
Proof.
  intros Hc Hother.
  destruct (create_donation_campaigns format_x now_update now_issue payload s)
    as [Hngo [Hsame|(oid & Hoid & Hupd)]].
  - by rewrite Hsame.
  - split; [|done]. rewrite Hupd. apply update_first_other; [|done].
    intros E. apply Hother. by rewrite Hoid, E.
Qed.

Lemma donation_leaves_other_campaigns_witness :
  campaign seeded !! 1%nat
  = Some (mkDoc 4%N
            (seed_campaign "Water: Lake Restoration" "000000000000000000000001"
               "Water" 800000 "Desilting and wetland buffer creation.") None) /\
  ObjectId_of air_id <> Some 4%N /\
  campaign (snd (create_donation bson_format 10 11 (donate air_id 1000) seeded))
    !! 1%nat
  = Some (mkDoc 4%N
            (seed_campaign "Water: Lake Restoration" "000000000000000000000001"
               "Water" 800000 "Desilting and wetland buffer creation.") None) /\
  ngo (snd (create_donation bson_format 10 11 (donate air_id 1000) seeded))
  = ngo seeded.
Proof.
  split; [reflexivity|]. split; [vm_compute; discriminate|].
  apply (donation_leaves_other_campaigns bson_format 10 11 (donate air_id 1000)
           seeded 1
           (mkDoc 4%N
              (seed_campaign "Water: Lake Restoration"
                 "000000000000000000000001" "Water" 800000
                 "Desilting and wetland buffer creation.") None));
    [reflexivity | vm_compute; discriminate].
Defined.

(** X6.  Nothing is rolled back.  When the transaction hash cannot be
    formatted, the call ends in an uncaught [TypeError] after steps 2 and
    3: the donation stays recorded and the campaign total stays
    raised, with no Transaction and no Receipt for it. *)
Theorem donation_partial_write format_x now_update now_issue payload s camp :
  referenced_campaign (DonationIn.campaign_id payload) s = Some camp ->
  1 <= DonationIn.amount_inr payload ->
  format_x (next_oid s + 1)%N = None ->
  exists e s' d camp',
    create_donation format_x now_update now_issue payload s
    = (Uncaught (TypeError e), s') /\
    donation s' = donation s ++ [d] /\
    Donation.amount_inr (fields d) = DonationIn.amount_inr payload /\
    referenced_campaign (DonationIn.campaign_id payload) s' = Some camp' /\
    Campaign.raised_inr (fields camp')
    = Campaign.raised_inr (fields camp) + DonationIn.amount_inr payload /\
    transaction s' = transaction s /\
    receipt s' = receipt s.
Proof.
  intros Href Hamount Hfmt. rewrite create_donation_unfold.
  unfold referenced_campaign in *.
  destruct (ObjectId_of (DonationIn.campaign_id payload)) as [oid|];
    [|discriminate].
  rewrite Href, Hfmt. apply Z.leb_le in Hamount. rewrite Hamount.
  do 4 eexists. split; [reflexivity|]. simpl.
  split; [reflexivity|]. split; [reflexivity|].
  split; [by apply find_by_id_update_first|].
  rewrite inc_raised_value. repeat split.
Qed.

Lemma donation_partial_write_witness :
  referenced_campaign air_id seeded = Some air_campaign /\
  1 <= 1000 /\
  (fun _ : ObjectId => @None string) (next_oid seeded + 1)%N = None /\
  exists e s' d camp',
    create_donation (fun _ => None) 10 11 (donate air_id 1000) seeded
    = (Uncaught (TypeError e), s') /\
    donation s' = donation seeded ++ [d] /\
    Donation.amount_inr (fields d) = 1000 /\
    referenced_campaign air_id s' = Some camp' /\
    Campaign.raised_inr (fields camp') = 0 + 1000 /\
    transaction s' = transaction seeded /\
    receipt s' = receipt seeded.
Proof.
  split; [reflexivity|]. split; [lia|]. split; [reflexivity|].
  apply (donation_partial_write (fun _ => None) 10 11 (donate air_id 1000)
           seeded air_campaign); [reflexivity | simpl; lia | reflexivity].
Defined.

Lemma dict_by_id_snoc {A} (docs : list (Doc A)) x :
  dict_by_id (docs ++ [x]) = <[oid_str (_id x) := x]> (dict_by_id docs).
Proof. unfold dict_by_id. by rewrite foldl_app. Qed.

Lemma slice_from_last {A} (l : list A) x : slice_from (- 1) (l ++ [x]) = [x].
Proof.
  unfold slice_from. simpl. rewrite length_app. simpl.
  replace (Z.to_nat (Z.max 0 (-1 + Z.of_nat (length l + 1)))) with (length l)
    by lia.
  by rewrite drop_app_length.
Qed.

(** ** More on seeding and on the ledger *)

(** X8.  The seed looks at the NGO collection only.  Once an NGO was created
    through [POST /api/ngos], on an empty database too, [POST /api/seed]
    inserts nothing: neither the demo NGOs nor the demo campaigns. *)
Theorem seed_after_create_ngo data s :
  seed (snd (create_ngo data s)) = (Return "ok", snd (create_ngo data s)) /\
  campaign (snd (seed (snd (create_ngo data s)))) = campaign s.
Proof.
  assert (seed (snd (create_ngo data s)) = (Return "ok", snd (create_ngo data s)))
    as E.
  { rewrite seed_unfold, create_ngo_unfold. simpl.
    by destruct (ngo s). }
  split; [exact E|]. rewrite E. reflexivity.
Qed.

(** X9.  A limit that is not below the number of transactions gives the whole
    ledger, the newest first; the default limit of 50 does so while there are
    at most 50 transactions. *)
Theorem list_transactions_large_limit limit s :
  Z.of_nat (length (transaction s)) <= limit ->
  list_transactions limit s =
  (Return (map (ledger_row (dict_by_id (donation s)) (dict_by_id (campaign s))
                           (dict_by_id (ngo s)))
               (rev (transaction s))),
   s).
Proof.
  intros Hlimit. rewrite list_transactions_unfold.
  replace (slice_from (- limit) (transaction s)) with (transaction s);
    [done|].
  unfold slice_from.
  destruct (- limit <? 0) eqn:E.
  - replace (Z.to_nat (Z.max 0 (- limit + Z.of_nat (length (transaction s)))))
      with 0%nat by lia.
    reflexivity.
  - apply Z.ltb_ge in E.
    replace (Z.to_nat (Z.min (- limit) (Z.of_nat (length (transaction s)))))
      with 0%nat by lia.
    reflexivity.
Qed.

Lemma list_transactions_large_limit_witness :
  Z.of_nat (length (transaction two_donations)) <= default_limit /\
  list_transactions default_limit two_donations =
  (Return (map (ledger_row (dict_by_id (donation two_donations))
                           (dict_by_id (campaign two_donations))
                           (dict_by_id (ngo two_donations)))
               (rev (transaction two_donations))),
   two_donations).
Proof.
  split; [vm_compute; discriminate|].
  apply (list_transactions_large_limit default_limit two_donations).
  vm_compute; discriminate.
Defined.

(** X10.  A negative limit [-k] is accepted: the ledger then leaves out the
    [k] oldest transactions and lists the others, the newest first; it is
    empty when [k] is the number of transactions or more. *)
Theorem list_transactions_negative_limit limit s :
  limit < 0 ->
  list_transactions limit s =
  (Return (map (ledger_row (dict_by_id (donation s)) (dict_by_id (campaign s))
                           (dict_by_id (ngo s)))
               (rev (drop (Z.to_nat (- limit)) (transaction s)))),
   s) /\
  (Z.of_nat (length (transaction s)) <= - limit ->
   list_transactions limit s = (Return [], s)).
Proof.
  intros Hlimit.
  assert (slice_from (- limit) (transaction s)
          = drop (Z.to_nat (- limit)) (transaction s)) as E.
  { unfold slice_from.
    destruct (- limit <? 0) eqn:E'; [apply Z.ltb_lt in E'; lia|].
    destruct (Z.le_ge_cases (- limit) (Z.of_nat (length (transaction s)))).
    - by rewrite Z.min_l.
    - rewrite Z.min_r by done. rewrite Nat2Z.id.
      rewrite !drop_ge; [done | lia | lia]. }
  rewrite list_transactions_unfold, E. split; [done|].
  intros Hall. rewrite drop_ge by lia. reflexivity.
Qed.

Lemma list_transactions_negative_limit_witness :
  -1 < 0 /\
  list_transactions (-1) two_donations =
  (Return (map (ledger_row (dict_by_id (donation two_donations))
                           (dict_by_id (campaign two_donations))
                           (dict_by_id (ngo two_donations)))
               (rev (drop (Z.to_nat (- -1)) (transaction two_donations)))),
   two_donations).
Proof.
  split; [lia|].
  apply (proj1 (list_transactions_negative_limit (-1) two_donations
                  ltac:(lia))).
Defined.

(** ** Reachable stores are consistent *)

Lemma serve_written format_x r s : written s (snd (serve format_x r s)).
Proof.
  destruct (is_GET r) eqn:Hget.
  { destruct (GET_run format_x r s Hget) as [body ->]. constructor. }
  destruct r; try discriminate; unfold serve.
  - rewrite fmap_M_store, seed_unfold. simpl.
    destruct (ngo s) eqn:E; [|constructor]. by apply written_seed.
  - rewrite fmap_M_store, create_ngo_unfold. apply written_ngo.
  - destruct (Campaign.validate body) eqn:Hvalid; [|constructor].
    rewrite fmap_M_store, create_campaign_unfold.
    destruct (referenced_ngo (Campaign.ngo_id body) s) as [n|] eqn:E;
      [|constructor].
    by apply written_campaign with (n := n).
  - rewrite fmap_M_store, create_donation_unfold.
    destruct (ObjectId_of (DonationIn.campaign_id body)) as [oid|] eqn:Hoid;
      [|constructor].
    destruct (find_by_id oid (campaign s)) as [camp|] eqn:Hcamp; [|constructor].
    destruct (1 <=? DonationIn.amount_inr body) eqn:Hamount; [|constructor].
    apply Z.leb_le in Hamount.
    destruct (format_x (next_oid s + 1)%N) as [hex|]; simpl.
    + by apply written_donation with (camp := camp).
    + by apply written_increment with (camp := camp).
Qed.

Lemma fresh_ids_mono {A} (k k' : N) (docs : list (Doc A)) :
  (k <= k')%N -> fresh_ids k docs -> fresh_ids k' docs.
Proof.
  intros Hk [Hnodup Hbelow]. split; [done|].
  eapply Forall_impl; [exact Hbelow|]. intros x Hx. simpl in Hx. lia.
Qed.

Lemma fresh_ids_snoc {A} (k k' i : N) (docs : list (Doc A)) a u :
  fresh_ids k docs -> (k <= i)%N -> (i < k')%N ->
  fresh_ids k' (docs ++ [mkDoc i a u]).
Proof.
  intros [Hnodup Hbelow] Hi Hk. split.
  - unfold ids. rewrite map_app. simpl. apply NoDup_app.
    split; [exact Hnodup|]. split; [|apply NoDup_singleton].
    intros x Hx ->%list_elem_of_singleton.
    apply list_elem_of_fmap in Hx as (y & -> & Hy).
    rewrite Forall_forall in Hbelow. specialize (Hbelow y Hy). simpl in Hbelow.
    lia.
  - apply Forall_app. split.
    + eapply Forall_impl; [exact Hbelow|]. intros x Hx. simpl in Hx. lia.
    + constructor; [simpl; lia | constructor].
Qed.

Lemma update_first_ids {A} oid (u : Doc A -> Doc A) docs :
  (forall y, _id (u y) = _id y) -> ids (update_first oid u docs) = ids docs.
Proof.
  intros Hu. induction docs as [|x rest IH]; simpl; [done|].
  destruct (N.eqb (_id x) oid); simpl; [by rewrite Hu | by rewrite IH].
Qed.

Lemma update_first_Forall {A} (P : Doc A -> Prop) oid (u : Doc A -> Doc A) docs :
  (forall y, P y -> P (u y)) -> Forall P docs -> Forall P (update_first oid u docs).
Proof.
  intros Hu. induction 1 as [|x rest Hx Hrest IH]; simpl; [constructor|].
  destruct (N.eqb (_id x) oid); constructor; auto.
Qed.

Lemma fresh_ids_update_first {A} k oid (u : Doc A -> Doc A) docs :
  (forall y, _id (u y) = _id y) ->
  fresh_ids k docs -> fresh_ids k (update_first oid u docs).
Proof.
  intros Hu [Hnodup Hbelow]. split.
  - by rewrite update_first_ids.
  - apply update_first_Forall; [|done]. intros y Hy. simpl. by rewrite Hu.
Qed.

(** With distinct identifiers, [update_one] changes every document that
    carries the identifier (there is at most one) and no other. *)
Lemma update_first_map {A} oid (u : Doc A -> Doc A) docs :
  NoDup (ids docs) ->
  update_first oid u docs
  = map (fun x => if N.eqb (_id x) oid then u x else x) docs.
Proof.
  induction docs as [|x rest IH]; simpl; [done|].
  intros [Hx Hrest]%NoDup_cons.
  destruct (N.eqb_spec (_id x) oid) as [E|E]; [|by rewrite IH].
  f_equal. clear IH Hrest.
  induction rest as [|y rest IH]; simpl; [done|].
  apply not_elem_of_cons in Hx as [Hy Hx].
  destruct (N.eqb_spec (_id y) oid) as [E'|E']; [congruence|].
  by rewrite <- IH.
Qed.

Lemma find_by_id_app_Some {A} oid (docs more : list (Doc A)) :
  is_Some (find_by_id oid docs) -> is_Some (find_by_id oid (docs ++ more)).
Proof.
  unfold find_by_id. induction docs as [|x rest IH]; simpl.
  - by intros [? ?].
  - destruct (N.eqb (_id x) oid); [eauto | exact IH].
Qed.

Lemma find_by_id_update_first_Some {A} o oid (u : Doc A -> Doc A) docs :
  (forall y, _id (u y) = _id y) ->
  is_Some (find_by_id o docs) -> is_Some (find_by_id o (update_first oid u docs)).
Proof.
  intros Hu. unfold find_by_id. induction docs as [|x rest IH]; simpl; [done|].
  destruct (N.eqb (_id x) oid) eqn:E; simpl.
  - rewrite Hu. destruct (N.eqb (_id x) o); eauto.
  - destruct (N.eqb (_id x) o); eauto.
Qed.

Lemma designated_app_Some {A} key (docs more : list (Doc A)) :
  is_Some (designated key docs) -> is_Some (designated key (docs ++ more)).
Proof.
  unfold designated. destruct (ObjectId_of key); [|done].
  apply find_by_id_app_Some.
Qed.

Lemma designated_update_first_Some {A} key oid (u : Doc A -> Doc A) docs :
  (forall y, _id (u y) = _id y) ->
  is_Some (designated key docs) ->
  is_Some (designated key (update_first oid u docs)).
Proof.
  intros Hu. unfold designated. destruct (ObjectId_of key); [|done].
  by apply find_by_id_update_first_Some.
Qed.

Lemma designated_below {A} key (k : N) (docs : list (Doc A)) :
  fresh_ids k docs -> is_Some (designated key docs) ->
  exists oid, ObjectId_of key = Some oid /\ (oid < k)%N.
Proof.
  intros [_ Hbelow] [x Hx]. unfold designated in Hx.
  destruct (ObjectId_of key) as [oid|]; [|discriminate].
  exists oid. split; [done|].
  pose proof (find_by_id_id _ _ _ Hx) as <-.
  unfold find_by_id in Hx. apply find_some in Hx as [Hin _].
  rewrite Forall_forall in Hbelow. apply Hbelow. by apply list_elem_of_In.
Qed.

Lemma Zsum_app l1 l2 : Zsum (l1 ++ l2) = Zsum l1 + Zsum l2.
Proof. induction l1 as [|x l1 IH]; simpl; lia. Qed.

Lemma donated_to_snoc oid docs d :
  donated_to oid (docs ++ [d]) =
  donated_to oid docs +
  (if bool_decide (ObjectId_of (Donation.campaign_id (fields d)) = Some oid)
   then Donation.amount_inr (fields d) else 0).
Proof.
  unfold donated_to. rewrite List.filter_app, map_app, Zsum_app. simpl.
  destruct (bool_decide _); simpl; lia.
Qed.

Lemma donated_to_none oid docs :
  Forall (fun d => ObjectId_of (Donation.campaign_id (fields d)) <> Some oid)
         docs ->
  donated_to oid docs = 0.
Proof.
  unfold donated_to. induction 1 as [|d docs Hd _ IH]; simpl; [done|].
  by rewrite bool_decide_eq_false_2.
Qed.

Lemma consistent_empty : consistent empty_store.
Proof.
  split; try (split; constructor); constructor.
Qed.

Lemma consistent_seed_inserts_empty : consistent (seed_inserts empty_store).
Proof.
  split.
  - split; apply (bool_decide_unpack _); vm_compute; exact I.
  - split; apply (bool_decide_unpack _); vm_compute; exact I.
  - split; constructor.
  - split; constructor.
  - split; constructor.
  - repeat constructor; vm_compute; eexists; reflexivity.
  - constructor.
  - constructor.
  - constructor.
  - constructor.
  - discriminate.
  - repeat constructor; vm_compute; discriminate.
Qed.

Lemma consistent_with_new_ngo data s :
  consistent s -> consistent (with_new_ngo data s).
Proof.
  intros [Hn Hc Hd Ht Hr Hcr Hdr Htr Hrr Ham Hno Htot].
  split; simpl; try done;
    try (eapply fresh_ids_mono; [|eassumption]; lia).
  - eapply fresh_ids_snoc; [eassumption | lia | lia].
  - eapply Forall_impl; [exact Hcr|]. intros c. apply designated_app_Some.
  - intros E. by apply app_eq_nil in E as [_ ?].
Qed.

Lemma consistent_with_new_campaign c n s :
  Campaign.validate c = true ->
  designated (Campaign.ngo_id c) (ngo s) = Some n ->
  consistent s -> consistent (with_new_campaign c s).
Proof.
  intros Hvalid Hngo [Hn Hc Hd Ht Hr Hcr Hdr Htr Hrr Ham Hno Htot].
  split; simpl; try done;
    try (eapply fresh_ids_mono; [|eassumption]; lia).
  - eapply fresh_ids_snoc; [eassumption | lia | lia].
  - apply Forall_app. split; [done|]. constructor; [|constructor].
    simpl. by rewrite Hngo.
  - eapply Forall_impl; [exact Hdr|]. intros d. apply designated_app_Some.
  - intros E. rewrite (Hno E) in Hngo. unfold designated in Hngo. simpl in Hngo.
    by destruct (ObjectId_of (Campaign.ngo_id c)).
  - apply Forall_app. split; [done|]. constructor; [|constructor]. simpl.
    rewrite donated_to_none.
    + unfold Campaign.validate in Hvalid.
      apply andb_true_iff in Hvalid as [_ H]. by apply Z.leb_le.
    + eapply Forall_impl; [exact Hdr|]. intros d Hsome E. simpl in *.
      destruct (designated_below _ _ _ Hc Hsome) as (oid & Hoid & Hlt).
      rewrite Hoid in E. injection E as ->. lia.
Qed.

Lemma consistent_after_increment now_update payload oid camp s :
  ObjectId_of (DonationIn.campaign_id payload) = Some oid ->
  find_by_id oid (campaign s) = Some camp ->
  1 <= DonationIn.amount_inr payload ->
  consistent s -> consistent (after_increment now_update payload oid s).
Proof.
  intros Hoid Hcamp Hamount [Hn Hc Hd Ht Hr Hcr Hdr Htr Hrr Ham Hno Htot].
  split; simpl; try done;
    try (eapply fresh_ids_mono; [|eassumption]; lia).
  - apply fresh_ids_update_first; [done|].
    eapply fresh_ids_mono; [|eassumption]. lia.
  - eapply fresh_ids_snoc; [eassumption | lia | lia].
  - apply update_first_Forall; [done | exact Hcr].
  - apply Forall_app. split.
    + eapply Forall_impl; [exact Hdr|]. intros d.
      by apply designated_update_first_Some.
    + constructor; [|constructor]. simpl.
      apply designated_update_first_Some; [done|].
      unfold designated. rewrite Hoid, Hcamp. eauto.
  - eapply Forall_impl; [exact Htr|]. intros t Ht'. simpl in *.
    rewrite map_app. apply elem_of_app. by left.
  - eapply Forall_impl; [exact Hrr|]. intros r Hr'. simpl in *.
    rewrite map_app. apply elem_of_app. by left.
  - apply Forall_app. split; [done|]. by repeat constructor.
  - intros E. rewrite (Hno E) in Hcamp. discriminate.
  - rewrite update_first_map by apply Hc.
    apply Forall_fmap. eapply Forall_impl; [exact Htot|].
    intros x Hx. simpl in *.
    rewrite donated_to_snoc. simpl. rewrite Hoid.
    destruct (N.eqb_spec (_id x) oid) as [E|E]; simpl.
    + rewrite bool_decide_eq_true_2 by congruence. lia.
    + rewrite bool_decide_eq_false_2 by congruence. lia.
Qed.

(** Steps 4 and 5 on top of a consistent store: a transaction and a receipt
    for a donation that is in it. *)
Lemma consistent_settled s (k1 k2 k3 : N) tx rc :
  (next_oid s <= k1)%N -> (k1 < k2)%N -> (k2 < k3)%N ->
  Transaction.donation_id tx ∈ map (fun d => oid_str (_id d)) (donation s) ->
  Receipt.donation_id rc ∈ map (fun d => oid_str (_id d)) (donation s) ->
  consistent s ->
  consistent (mkStore (ngo s) (campaign s) (donation s)
                      (transaction s ++ [mkDoc k1 tx None])
                      (receipt s ++ [mkDoc k2 rc None]) k3).
Proof.
  intros H1 H2 H3 Htx Hrc [Hn Hc Hd Ht Hr Hcr Hdr Htr Hrr Ham Hno Htot].
  split; simpl; try done;
    try (eapply fresh_ids_mono; [|eassumption]; lia).
  - eapply fresh_ids_snoc; [eassumption | lia | lia].
  - eapply fresh_ids_snoc; [eassumption | lia | lia].
  - apply Forall_app. split; [done|]. by repeat constructor.
  - apply Forall_app. split; [done|]. by repeat constructor.
  - intros E. specialize (Hno E). rewrite Hno in Htx. simpl in Htx.
    by apply elem_of_nil in Htx.
Qed.

Lemma written_consistent s s' : consistent s -> written s s' -> consistent s'.
Proof.
  intros Hs Hw. destruct Hw as [|Hempty|data|c n Hvalid Hngo
                               |now_update payload oid camp Hoid Hcamp Hamount
                               |now_update now_issue payload oid hex camp
                                  Hoid Hcamp Hamount].
  - exact Hs.
  - rewrite (c_no_ngo s Hs Hempty). apply consistent_seed_inserts_empty.
  - by apply consistent_with_new_ngo.
  - by apply consistent_with_new_campaign with (n := n).
  - by apply consistent_after_increment with (camp := camp).
  - pose proof (consistent_after_increment now_update payload oid camp s
                  Hoid Hcamp Hamount Hs) as Hs2.
    apply (consistent_settled (after_increment now_update payload oid s)
             (next_oid s + 2)%N (next_oid s + 3)%N (next_oid s + 4)%N
             (Transaction.mk (oid_str (next_oid s)) ("0x" +:+ hex) "Settled")
             (Receipt.mk (oid_str (next_oid s))
                         (Some ("nft-" +:+ oid_str (next_oid s)))
                         (Some now_issue)));
      simpl; try lia; try exact Hs2.
    + rewrite map_app. apply elem_of_app. right. simpl. apply list_elem_of_here.
    + rewrite map_app. apply elem_of_app. right. simpl. apply list_elem_of_here.
Qed.

(** Every store the API can bring about is consistent. *)
Lemma reachable_consistent format_x s : reachable format_x s -> consistent s.
Proof.
  induction 1 as [|r s Hs IH]; [apply consistent_empty|].
  eapply written_consistent; [exact IH | apply serve_written].
Qed.

Lemma two_gifts_reachable : reachable bson_format two_gifts.
Proof. unfold two_gifts. apply reachable_run. constructor. Qed.

(** X11.  In every store the API can bring about no reference dangles: the
    [ngo_id] of every campaign designates an NGO of the store, the
    [campaign_id] of every donation designates a campaign of the store, and
    the [donation_id] of every transaction and of every receipt is the
    identifier of a donation of the store. *)
Theorem reachable_references_resolve format_x s :
  reachable format_x s ->
  (forall c, c ∈ campaign s ->
             is_Some (referenced_ngo (Campaign.ngo_id (fields c)) s)) /\
  (forall d, d ∈ donation s ->
             is_Some (referenced_campaign (Donation.campaign_id (fields d)) s)) /\
  (forall t, t ∈ transaction s ->
             exists d, d ∈ donation s /\
                       Transaction.donation_id (fields t) = oid_str (_id d)) /\
  (forall r, r ∈ receipt s ->
             exists d, d ∈ donation s /\
                       Receipt.donation_id (fields r) = oid_str (_id d)).
Proof.
  intros Hs. apply reachable_consistent in Hs.
  destruct Hs as [_ _ _ _ _ Hcr Hdr Htr Hrr _ _ _].
  rewrite Forall_forall in Hcr. rewrite Forall_forall in Hdr.
  rewrite Forall_forall in Htr. rewrite Forall_forall in Hrr.
  split; [exact Hcr|]. split; [exact Hdr|]. split.
  - intros t Ht. apply Htr, list_elem_of_fmap in Ht as (d & E & Hd). eauto.
  - intros r Hr. apply Hrr, list_elem_of_fmap in Hr as (d & E & Hd). eauto.
Qed.

Lemma reachable_references_resolve_witness :
  reachable bson_format two_gifts /\
  (forall c, c ∈ campaign two_gifts ->
             is_Some (referenced_ngo (Campaign.ngo_id (fields c)) two_gifts)) /\
  (forall d, d ∈ donation two_gifts ->
             is_Some (referenced_campaign (Donation.campaign_id (fields d))
                                          two_gifts)) /\
  (forall t, t ∈ transaction two_gifts ->
             exists d, d ∈ donation two_gifts /\
                       Transaction.donation_id (fields t) = oid_str (_id d)) /\
  (forall r, r ∈ receipt two_gifts ->
             exists d, d ∈ donation two_gifts /\
                       Receipt.donation_id (fields r) = oid_str (_id d)).
Proof.
  split; [exact two_gifts_reachable|].
  apply (reachable_references_resolve bson_format two_gifts).
  exact two_gifts_reachable.
Defined.

(** X12.  In every store the API can bring about, every recorded donation
    has an amount of at least 1, and the [raised_inr] of every campaign is at
    least the sum of the amounts of the donations made out to it: no
    recorded donation is missing from the total. *)
Theorem reachable_total_covers_donations format_x s :
  reachable format_x s ->
  (forall d, d ∈ donation s -> 1 <= Donation.amount_inr (fields d)) /\
  (forall c, c ∈ campaign s ->
             donated_to (_id c) (donation s) <= Campaign.raised_inr (fields c)).
Proof.
  intros Hs. apply reachable_consistent in Hs.
  destruct Hs as [_ _ _ _ _ _ _ _ _ Ham _ Htot].
  rewrite Forall_forall in Ham. rewrite Forall_forall in Htot. auto.
Qed.

Lemma reachable_total_covers_donations_witness :
  reachable bson_format two_gifts /\
  (forall d, d ∈ donation two_gifts -> 1 <= Donation.amount_inr (fields d)) /\
  (forall c, c ∈ campaign two_gifts ->
             donated_to (_id c) (donation two_gifts)
             <= Campaign.raised_inr (fields c)).
Proof.
  split; [exact two_gifts_reachable|].
  apply (reachable_total_covers_donations bson_format two_gifts).
  exact two_gifts_reachable.
Defined.

Example two_gifts_total :
  donated_to 3%N (donation two_gifts) = 1250 /\
  (Campaign.raised_inr ∘ fields) <$> referenced_campaign air_id two_gifts
  = Some 1250.
Proof. split; vm_compute; reflexivity. Qed.

(** ** Identifiers as strings *)

Lemma hex_value_hex_char (d : N) :
  (d < 16)%N -> hex_value (hex_char d) = Some d.
Proof.
  intros H. destruct d as [|p]; [reflexivity|].
  do 4 (try destruct p as [p|p|]); try reflexivity; lia.
Qed.

Lemma hex_render_length digits n acc :
  String.length (hex_render digits n acc) = (digits + String.length acc)%nat.
Proof.
  revert n acc. induction digits as [|k IH]; intros n acc; simpl; [done|].
  rewrite IH. simpl. lia.
Qed.

Lemma hex_parse_render digits n acc a :
  hex_parse (hex_render digits n acc) a
  = hex_parse acc (a * 16 ^ N.of_nat digits + n mod 16 ^ N.of_nat digits)%N.
Proof.
  revert n acc a. induction digits as [|k IH]; intros n acc a.
  - simpl. rewrite N.mod_1_r. f_equal. lia.
  - cbn [hex_render]. rewrite IH. cbn [hex_parse].
    rewrite hex_value_hex_char by (apply N.mod_lt; lia).
    f_equal. rewrite Nat2N.inj_succ, N.pow_succ_r'.
    rewrite (N.Div0.mod_mul_r n 16 (16 ^ N.of_nat k)). lia.
Qed.

Lemma hex_digit_not_space c d : hex_value c = Some d -> is_space c = false.
Proof.
  unfold hex_value, is_space. generalize (N_of_ascii c). intros n.
  destruct (N.leb_spec 48 n), (N.leb_spec n 57), (N.leb_spec 97 n),
    (N.leb_spec n 102), (N.leb_spec 65 n), (N.leb_spec n 70);
    simpl; try discriminate; intros _;
    destruct (N.eqb_spec n 32), (N.leb_spec 9 n), (N.leb_spec n 13);
    simpl; try reflexivity; lia.
Qed.

(** On a run of hexadecimal digits, [bytes.fromhex] gives one byte per pair,
    and the bytes denote the number the digits denote. *)
Lemma fromhex_digits (k : nat) s a v :
  String.length s = (2 * k)%nat ->
  hex_parse s a = Some v ->
  exists bs,
    fromhex s = Some bs /\ length bs = k /\
    foldl (fun acc b => (256 * acc + b)%N) a bs = v.
Proof.
  revert s a. induction k as [|k IH]; intros s a Hlen Hparse.
  - destruct s; [|discriminate]. simpl in Hparse. injection Hparse as <-.
    by exists [].
  - destruct s as [|c1 s]; [simpl in Hlen; lia|].
    destruct s as [|c2 rest]; [simpl in Hlen; lia|].
    cbn [hex_parse] in Hparse.
    destruct (hex_value c1) as [hi|] eqn:H1; [|discriminate].
    destruct (hex_value c2) as [lo|] eqn:H2; [|discriminate].
    destruct (IH rest _ ltac:(simpl in Hlen; lia) Hparse) as (bs & Hbs & Hk & Hv).
    exists ((16 * hi + lo)%N :: bs). cbn [fromhex].
    rewrite (hex_digit_not_space _ _ H1), H1, H2, Hbs. simpl.
    split; [done|]. split; [by rewrite Hk|].
    rewrite <- Hv. f_equal. lia.
Qed.

(** [str] always gives a well-formed identifier string, and reading it gives
    the identifier back. *)
Lemma ObjectId_of_oid_str (oid : ObjectId) :
  ObjectId_of (oid_str oid) = Some (oid mod oid_space)%N.
Proof.
  unfold ObjectId_of, ObjectId_read, oid_str.
  rewrite hex_render_length. simpl Nat.eqb. cbv iota.
  destruct (fromhex_digits 12 (hex_render 24 oid "") 0%N (oid mod oid_space)%N)
    as (bs & -> & Hlen & Hvalue).
  - by rewrite hex_render_length.
  - rewrite hex_parse_render. simpl hex_parse. f_equal.
  - cbn [mbind option_bind]. unfold stored_id, bytes_value.
    by rewrite Hlen, Hvalue.
Qed.

Lemma ObjectId_of_oid_str_small (oid : ObjectId) :
  (oid < oid_space)%N -> ObjectId_of (oid_str oid) = Some oid.
Proof.
  intros H. rewrite ObjectId_of_oid_str. f_equal. by apply N.mod_small.
Qed.

Lemma find_by_id_snoc_fresh {A} (k : N) (docs : list (Doc A)) a u :
  Forall (fun x => (_id x < k)%N) docs ->
  find_by_id k (docs ++ [mkDoc k a u]) = Some (mkDoc k a u).
Proof.
  unfold find_by_id. induction 1 as [|x rest Hx _ IH]; simpl.
  - by rewrite N.eqb_refl.
  - destruct (N.eqb_spec (_id x) k) as [E|E]; [lia | exact IH].
Qed.

(** ** From one request to the next *)

(** X14.  The identifier [POST /api/ngos] answers designates the NGO just
    created, so that a campaign naming it passes the NGO check of
    [POST /api/campaigns] (in a store the API can bring about, while 12-byte
    identifiers last). *)
Theorem created_ngo_is_designated format_x data c s :
  reachable format_x s ->
  (next_oid s < oid_space)%N ->
  answer (create_ngo data s) = Some (Campaign.ngo_id c) ->
  referenced_ngo (Campaign.ngo_id c) (snd (create_ngo data s))
  = Some (mkDoc (next_oid s) data None) /\
  exists new_id s',
    create_campaign c (snd (create_ngo data s)) = (Return new_id, s').
Proof.
  intros Hs Hspace Hid.
  assert (referenced_ngo (Campaign.ngo_id c) (snd (create_ngo data s))
          = Some (mkDoc (next_oid s) data None)) as E.
  { rewrite create_ngo_unfold in *. injection Hid as <-.
    unfold referenced_ngo. cbn [snd]. unfold with_new_ngo. cbn [ngo].
    rewrite ObjectId_of_oid_str_small by done.
    apply find_by_id_snoc_fresh.
    apply reachable_consistent in Hs.
    by destruct Hs as [[_ ?] _ _ _ _ _ _ _ _ _ _ _]. }
  split; [exact E|]. rewrite create_campaign_unfold, E. eauto.
Qed.

Lemma seeded_reachable : reachable bson_format seeded.
Proof. unfold seeded. apply reachable_run. constructor. Qed.

Lemma created_ngo_is_designated_witness :
  reachable bson_format seeded /\
  (next_oid seeded < oid_space)%N /\
  answer (create_ngo (seed_ngo "Vayu Trust" "KA-REG-004" "Air") seeded)
  = Some "000000000000000000000006" /\
  referenced_ngo "000000000000000000000006"
    (snd (create_ngo (seed_ngo "Vayu Trust" "KA-REG-004" "Air") seeded))
  = Some (mkDoc (next_oid seeded) (seed_ngo "Vayu Trust" "KA-REG-004" "Air") None) /\
  exists new_id s',
    create_campaign
      (seed_campaign "Air: Clean Chulhas" "000000000000000000000006" "Air"
         200000 "Improved cookstoves.")
      (snd (create_ngo (seed_ngo "Vayu Trust" "KA-REG-004" "Air") seeded))
    = (Return new_id, s').
Proof.
  split; [exact seeded_reachable|]. split; [reflexivity|].
  split; [reflexivity|].
  apply (created_ngo_is_designated bson_format
           (seed_ngo "Vayu Trust" "KA-REG-004" "Air")
           (seed_campaign "Air: Clean Chulhas" "000000000000000000000006" "Air"
              200000 "Improved cookstoves.")
           seeded seeded_reachable); reflexivity.
Defined.

(** X15.  The identifier [POST /api/campaigns] answers designates the
    campaign just created, and a donation made out to it raises the total of
    that campaign from the [raised_inr] of the body by the amount (in a
    store the API can bring about, while 12-byte identifiers last). *)
Theorem created_campaign_takes_donations format_x now_update now_issue c payload s :
  reachable format_x s ->
  (next_oid s < oid_space)%N ->
  answer (create_campaign c s) = Some (DonationIn.campaign_id payload) ->
  1 <= DonationIn.amount_inr payload ->
  referenced_campaign (DonationIn.campaign_id payload)
                      (snd (create_campaign c s))
  = Some (mkDoc (next_oid s) c None) /\
  exists camp',
    referenced_campaign (DonationIn.campaign_id payload)
      (snd (create_donation format_x now_update now_issue payload
              (snd (create_campaign c s))))
    = Some camp' /\
    _id camp' = next_oid s /\
    Campaign.raised_inr (fields camp')
    = Campaign.raised_inr c + DonationIn.amount_inr payload.
Proof.
  intros Hs Hspace Hid Hamount.
  rewrite create_campaign_unfold in *.
  destruct (referenced_ngo (Campaign.ngo_id c) s); [|discriminate].
  injection Hid as Hid.
  assert (ObjectId_of (DonationIn.campaign_id payload) = Some (next_oid s))
    as Hoid.
  { rewrite <- Hid. by apply ObjectId_of_oid_str_small. }
  assert (find_by_id (next_oid s) (campaign (with_new_campaign c s))
          = Some (mkDoc (next_oid s) c None)) as Hfind.
  { apply find_by_id_snoc_fresh. apply reachable_consistent in Hs.
    by destruct Hs as [_ [_ ?] _ _ _ _ _ _ _ _ _ _]. }
  cbn [snd]. unfold referenced_campaign. rewrite Hoid.
  split; [exact Hfind|].
  rewrite create_donation_unfold, Hoid, Hfind.
  apply Z.leb_le in Hamount. rewrite Hamount.
  exists (inc_raised_set_updated (DonationIn.amount_inr payload) now_update
            (mkDoc (next_oid s) c None)).
  split; [|split; reflexivity].
  destruct (format_x (next_oid (with_new_campaign c s) + 1)%N); simpl;
    by apply find_by_id_update_first.
Qed.

Lemma created_campaign_takes_donations_witness :
  reachable bson_format seeded /\
  (next_oid seeded < oid_space)%N /\
  answer (create_campaign
            (Campaign.mk "Air: Schoolyard Saplings" aranya_id "Air" 100000 75
                         None None None None) seeded)
  = Some "000000000000000000000006" /\
  1 <= 1000 /\
  exists camp',
    referenced_campaign "000000000000000000000006"
      (snd (create_donation bson_format 10 11
              (donate "000000000000000000000006" 1000)
              (snd (create_campaign
                      (Campaign.mk "Air: Schoolyard Saplings" aranya_id "Air"
                                   100000 75 None None None None) seeded))))
    = Some camp' /\
    _id camp' = next_oid seeded /\
    Campaign.raised_inr (fields camp') = 75 + 1000.
Proof.
  split; [exact seeded_reachable|]. split; [reflexivity|].
  split; [reflexivity|]. split; [lia|].
  apply (proj2 (created_campaign_takes_donations bson_format 10 11
                  (Campaign.mk "Air: Schoolyard Saplings" aranya_id "Air"
                               100000 75 None None None None)
                  (donate "000000000000000000000006" 1000)
                  seeded seeded_reachable eq_refl eq_refl ltac:(simpl; lia))).
Defined.

(** ** Points and totals *)

Lemma ranking_points s n pts :
  (n, pts) ∈ leaderboard_ranking s -> pts = points_by_campaign s n.
Proof.
  unfold leaderboard_ranking.
  rewrite (sorted_desc_Permutation (ngo_points_of s)). intros Hin.
  apply odict_elem_get in Hin; [|apply ngo_points_NoDup].
  rewrite ngo_points_get in Hin.
  destruct (has_key n (award_events s)); [|discriminate].
  by injection Hin.
Qed.

Lemma campaign_total_cons d docs k :
  campaign_total (d :: docs) k =
  (if String.eqb (Donation.campaign_id (fields d)) k
   then Donation.amount_inr (fields d) else 0)
  + campaign_total docs k.
Proof.
  unfold campaign_total. simpl.
  by destruct (String.eqb (Donation.campaign_id (fields d)) k).
Qed.

Lemma Zsum_map_add {A} (f g : A -> Z) l :
  Zsum (map (fun x => f x + g x) l) = Zsum (map f l) + Zsum (map g l).
Proof. induction l as [|x l IH]; simpl; lia. Qed.

Lemma Zsum_indicator (p : string -> bool) (K : list string) k0 a :
  NoDup K -> k0 ∈ K ->
  Zsum (map (fun k => if String.eqb k0 k then a else 0) (List.filter p K))
  = if p k0 then a else 0.
Proof.
  assert (forall K', k0 ∉ K' ->
            Zsum (map (fun k => if String.eqb k0 k then a else 0)
                      (List.filter p K')) = 0) as Hout.
  { induction K' as [|k K' IH]; simpl; [done|].
    intros [Hk HK']%not_elem_of_cons.
    destruct (p k); simpl; [|auto].
    rewrite (proj2 (String.eqb_neq k0 k)) by done. rewrite IH by done. lia. }
  induction 1 as [|k K Hk HK IH]; simpl.
  - intros H. by apply elem_of_nil in H.
  - intros Hin. destruct (String.eqb_spec k0 k) as [<-|Hne].
    + destruct (p k0); simpl.
      * rewrite String.eqb_refl, Hout by done. lia.
      * by apply Hout.
    + apply elem_of_cons in Hin as [?|Hin]; [done|].
      destruct (p k); simpl; [|auto].
      rewrite (proj2 (String.eqb_neq k0 k)) by done. rewrite IH by done. lia.
Qed.

(** Summing the totals of the campaign references that pass a test is
    summing the donations whose reference passes it. *)
Lemma Zsum_regroup (p : string -> bool) (K : list string) docs :
  NoDup K ->
  (forall d, d ∈ docs -> Donation.campaign_id (fields d) ∈ K) ->
  Zsum (map (campaign_total docs) (List.filter p K))
  = Zsum (map (fun d => Donation.amount_inr (fields d))
              (List.filter (fun d => p (Donation.campaign_id (fields d))) docs)).
Proof.
  intros HK. induction docs as [|d docs IH]; intros Hin.
  - simpl. induction (List.filter p K) as [|k l IHl]; simpl; [done|].
    rewrite IHl. reflexivity.
  - rewrite (map_ext _ _ (campaign_total_cons d docs)).
    rewrite Zsum_map_add, Zsum_indicator;
      [|done | apply Hin, list_elem_of_here].
    rewrite IH by (intros d' Hd'; by apply Hin, list_elem_of_further).
    simpl. destruct (p (Donation.campaign_id (fields d))); simpl; lia.
Qed.

Lemma Zsum_div_le {A} (f : A -> Z) l :
  Zsum (map (fun x => f x `div` 100) l) <= Zsum (map f l) `div` 100.
Proof.
  induction l as [|x l IH]; simpl; [done|].
  apply Z.div_le_lower_bound; [lia|].
  pose proof (Z.mul_div_le (f x) 100).
  pose proof (Z.mul_div_le (Zsum (map f l)) 100). lia.
Qed.

Lemma Zsum_div_nonneg {A} (f : A -> Z) l :
  Forall (fun x => 0 <= f x) l -> 0 <= Zsum (map (fun x => f x `div` 100) l).
Proof.
  induction 1 as [|x l Hx _ IH]; simpl; [done|].
  pose proof (Z.div_pos (f x) 100). lia.
Qed.

Lemma campaign_total_nonneg docs k :
  Forall (fun d => 1 <= Donation.amount_inr (fields d)) docs ->
  0 <= campaign_total docs k.
Proof.
  induction 1 as [|d docs Hd _ IH]; [done|].
  rewrite campaign_total_cons.
  destruct (String.eqb (Donation.campaign_id (fields d)) k); lia.
Qed.

Lemma donated_campaigns_complete docs d :
  d ∈ docs -> Donation.campaign_id (fields d) ∈ donated_campaigns docs.
Proof.
  intros Hd. unfold donated_campaigns. apply elem_of_remove_dups.
  apply list_elem_of_fmap. by exists d.
Qed.

Lemma total_by_campaigns s n :
  Zsum (map (campaign_total (donation s))
            (List.filter (owned_by (dict_by_id (campaign s)) n)
                         (donated_campaigns (donation s))))
  = Zsum (map (fun d => Donation.amount_inr (fields d))
              (List.filter
                 (fun d => owned_by (dict_by_id (campaign s)) n
                                    (Donation.campaign_id (fields d)))
                 (donation s))).
Proof.
  apply Zsum_regroup.
  - apply NoDup_remove_dups.
  - apply donated_campaigns_complete.
Qed.

(** X16.  The [eco_points] the leaderboard gives an NGO never exceed the
    floor of a hundredth of the total donated to its campaigns (one point per
    100 INR at most), and in a store the API can bring about they are never
    negative. *)
Theorem leaderboard_points_bounds format_x s n pts :
  reachable format_x s ->
  (n, pts) ∈ leaderboard_ranking s ->
  0 <= pts <= points_of_total s n.
Proof.
  intros Hs Hin. apply ranking_points in Hin as ->.
  unfold points_by_campaign, points_of_total. split.
  - apply Zsum_div_nonneg, Forall_forall. intros k _.
    apply campaign_total_nonneg.
    apply reachable_consistent in Hs. by destruct Hs.
  - rewrite <- total_by_campaigns. apply Zsum_div_le.
Qed.

Lemma leaderboard_points_bounds_witness :
  reachable bson_format two_campaigns /\
  (aranya_id, 0) ∈ leaderboard_ranking two_campaigns /\
  0 <= 0 <= points_of_total two_campaigns aranya_id.
Proof.
  assert (reachable bson_format two_campaigns) as Hreach.
  { unfold two_campaigns. apply reachable_run. constructor. }
  assert ((aranya_id, 0) ∈ leaderboard_ranking two_campaigns) as Hin.
  { rewrite two_campaigns_ranking. apply list_elem_of_here. }
  split; [exact Hreach|]. split; [exact Hin|].
  apply (leaderboard_points_bounds bson_format two_campaigns aranya_id 0
           Hreach Hin).
Defined.

(** X17.  When the donations that count for an NGO all come under one
    campaign reference, its [eco_points] are exactly the floor of a
    hundredth of the total donated to it. *)
Theorem leaderboard_points_single_campaign s n pts k :
  (n, pts) ∈ leaderboard_ranking s ->
  List.filter (owned_by (dict_by_id (campaign s)) n)
              (donated_campaigns (donation s)) = [k] ->
  pts = points_of_total s n.
Proof.
  intros Hin Hone. apply ranking_points in Hin as ->.
  unfold points_by_campaign, points_of_total.
  rewrite <- total_by_campaigns, Hone. simpl.
  by rewrite !Z.add_0_r.
Qed.

Lemma leaderboard_points_single_campaign_witness :
  (aranya_id, 12) ∈ leaderboard_ranking two_gifts /\
  List.filter (owned_by (dict_by_id (campaign two_gifts)) aranya_id)
              (donated_campaigns (donation two_gifts)) = [air_id] /\
  12 = points_of_total two_gifts aranya_id.
Proof.
  assert ((aranya_id, 12) ∈ leaderboard_ranking two_gifts) as Hin.
  { replace (leaderboard_ranking two_gifts) with [(aranya_id, 12)]
      by (vm_compute; reflexivity).
    apply list_elem_of_here. }
  assert (List.filter (owned_by (dict_by_id (campaign two_gifts)) aranya_id)
                      (donated_campaigns (donation two_gifts)) = [air_id])
    as Hone by (vm_compute; reflexivity).
  split; [exact Hin|]. split; [exact Hone|].
  apply (leaderboard_points_single_campaign two_gifts aranya_id 12 air_id
           Hin Hone).
Defined.

(** ** Listing campaigns *)

Lemma list_campaigns_unfold domain s :
  list_campaigns domain s =
  (Return (map (fun it =>
                  (serialize it,
                   NGO.name ∘ fields
                     <$> dict_by_id (ngo s) !! Campaign.ngo_id (fields it)))
               (selected_campaigns domain s)),
   s).
Proof.
  unfold list_campaigns, selected_campaigns, get_documents, find_all, gets,
    bind, ret.
  change (coll_get (A := Campaign.t) s) with (campaign s).
  change (coll_get (A := NGO.t) s) with (ngo s).
  destruct domain as [d|]; [destruct (String.eqb d "")|];
    by rewrite ?filter_no_filter.
Qed.

(** X18.  [GET /api/campaigns?domain=d] with a non-empty [d] lists the
    campaigns whose domain is exactly [d], each once and in insertion order,
    and no other; without the parameter, or with the empty string, it lists
    every campaign. *)
Theorem list_campaigns_selects domain s :
  exists rows,
    list_campaigns domain s = (Return rows, s) /\
    map row_campaign_id rows
    = map (fun x => oid_str (_id x)) (selected_campaigns domain s) /\
    (forall d, domain = Some d -> d <> "" ->
       Forall (fun row => Campaign.domain (row_campaign row) = d) rows /\
       forall c, c ∈ campaign s -> Campaign.domain (fields c) = d ->
                 oid_str (_id c) ∈ map row_campaign_id rows) /\
    (domain = None \/ domain = Some "" -> length rows = length (campaign s)).
Proof.
  eexists. split; [apply list_campaigns_unfold|].
  rewrite map_map. simpl. split; [reflexivity|]. split.
  - intros d -> Hd. unfold selected_campaigns.
    rewrite (proj2 (String.eqb_neq d "")) by done. split.
    + apply Forall_forall. intros row Hrow.
      apply list_elem_of_fmap in Hrow as (c & -> & Hc).
      apply list_elem_of_In, filter_In in Hc as [_ Hc].
      by apply String.eqb_eq in Hc.
    + intros c Hc Hdom. apply list_elem_of_fmap. exists c. split; [done|].
      apply list_elem_of_In, filter_In. split; [by apply list_elem_of_In|].
      by apply String.eqb_eq.
  - intros [->| ->]; simpl; by rewrite length_map.
Qed.

(** ** What is never undone *)

Lemma ids_update_first_prefix {A} oid (u : Doc A -> Doc A) docs :
  (forall y, _id (u y) = _id y) ->
  ids docs `prefix_of` ids (update_first oid u docs).
Proof. intros Hu. by rewrite update_first_ids. Qed.

Lemma written_extends s s' :
  written s s' ->
  ngo s `prefix_of` ngo s' /\
  ids (campaign s) `prefix_of` ids (campaign s') /\
  donation s `prefix_of` donation s' /\
  transaction s `prefix_of` transaction s' /\
  receipt s `prefix_of` receipt s'.
Proof.
  destruct 1; simpl; repeat split;
    try reflexivity; try (by apply prefix_app_r);
    try (by apply prefix_nil);
    try (unfold ids; rewrite map_app; by apply prefix_app_r);
    try (by apply ids_update_first_prefix).
  rewrite H. apply prefix_nil.
Qed.

(** X19.  Nothing is ever deleted, reordered or rewritten, campaign totals
    apart: after any request every NGO, donation, transaction and receipt
    document of before is still there, unchanged and in its place, with new
    documents only after them, and so are the campaigns as far as their
    identifiers go. *)
Theorem requests_only_append format_x r s :
  ngo s `prefix_of` ngo (snd (serve format_x r s)) /\
  ids (campaign s) `prefix_of` ids (campaign (snd (serve format_x r s))) /\
  donation s `prefix_of` donation (snd (serve format_x r s)) /\
  transaction s `prefix_of` transaction (snd (serve format_x r s)) /\
  receipt s `prefix_of` receipt (snd (serve format_x r s)).
Proof. apply written_extends, serve_written. Qed.

(** ** References are joined by their spelling *)

Lemma dict_by_id_related {A B} (g : Doc A -> B) (l l' : list (Doc A)) :
  Forall2 (fun x y => _id x = _id y /\ g x = g y) l l' ->
  forall k, g <$> dict_by_id l !! k = g <$> dict_by_id l' !! k.
Proof.
  unfold dict_by_id. intros Hrel.
  assert (forall m m' : gmap string (Doc A),
            (forall k, g <$> m !! k = g <$> m' !! k) ->
            forall k,
              g <$> foldl (fun m x => <[oid_str (_id x) := x]> m) m l !! k
              = g <$> foldl (fun m x => <[oid_str (_id x) := x]> m) m' l' !! k)
    as Hgen.
  { induction Hrel as [|x y l l' [Hid Hg] _ IH]; intros m m' Hm; simpl; [done|].
    apply IH. intros k. rewrite !lookup_insert, Hid.
    case_decide; simpl; [by rewrite Hg | apply Hm]. }
  by apply Hgen.
Qed.

Lemma update_first_related {A B} (g : Doc A -> B) oid (u : Doc A -> Doc A) l :
  (forall y, _id (u y) = _id y) -> (forall y, g (u y) = g y) ->
  Forall2 (fun x y => _id x = _id y /\ g x = g y) l (update_first oid u l).
Proof.
  intros Hid Hg. induction l as [|x l IH]; simpl; [constructor|].
  destruct (N.eqb (_id x) oid); constructor; auto.
  apply Forall2_same_length_lookup_2; [done|].
  intros i a b Ha Hb. rewrite Ha in Hb. by injection Hb as ->.
Qed.

Lemma aggregate_group_snoc docs d :
  aggregate_group (docs ++ [d])
  = odict_accum (Donation.campaign_id (fields d))
                (Donation.amount_inr (fields d)) (aggregate_group docs).
Proof. unfold aggregate_group. by rewrite foldl_app. Qed.

Lemma omap_cons {A B} (f : A -> option B) x l :
  omap f (x :: l)
  = match f x with Some y => y :: omap f l | None => omap f l end.
Proof. reflexivity. Qed.

Lemma resolve_None camp_map k v :
  camp_map !! k = None -> resolve camp_map (k, v) = None.
Proof. intros Hk. unfold resolve. simpl. by rewrite Hk. Qed.

Lemma omap_resolve_add camp_map k a d :
  camp_map !! k = None ->
  omap (resolve camp_map) (odict_add k a d) = omap (resolve camp_map) d.
Proof.
  intros Hk. induction d as [|[k' w] d IH]; [done|].
  cbn [odict_add].
  destruct (String.eqb_spec k' k) as [->|Hne]; rewrite !omap_cons.
  - by rewrite !resolve_None.
  - by rewrite IH.
Qed.

Lemma omap_resolve_accum camp_map k a d :
  camp_map !! k = None ->
  omap (resolve camp_map) (odict_accum k a d) = omap (resolve camp_map) d.
Proof.
  intros Hk. unfold odict_accum, odict_setdefault.
  rewrite omap_resolve_add by done.
  destruct (odict_get k d); [done|].
  rewrite omap_app, omap_cons, resolve_None by done.
  apply app_nil_r.
Qed.

Lemma omap_resolve_ext (cm cm' : gmap string (Doc Campaign.t))
    (agg : list (string * Z)) :
  (forall k, (fun c => Campaign.ngo_id (fields c)) <$> cm !! k
             = (fun c => Campaign.ngo_id (fields c)) <$> cm' !! k) ->
  omap (resolve cm) agg = omap (resolve cm') agg.
Proof.
  intros Hrel. induction agg as [|row agg IH]; [done|].
  rewrite !omap_cons, IH.
  replace (resolve cm row) with (resolve cm' row); [done|].
  unfold resolve. specialize (Hrel (fst row)).
  destruct (cm !! fst row), (cm' !! fst row); simpl in *; congruence.
Qed.

Lemma dict_by_id_update_first_None oid (u : Doc Campaign.t -> Doc Campaign.t)
    docs k :
  (forall y, _id (u y) = _id y) ->
  dict_by_id docs !! k = None ->
  dict_by_id (update_first oid u docs) !! k = None.
Proof.
  intros Hu Hk.
  pose proof (dict_by_id_related _id docs (update_first oid u docs)
                (update_first_related _id oid u docs Hu Hu) k) as E.
  rewrite Hk in E. simpl in E.
  by destruct (dict_by_id (update_first oid u docs) !! k).
Qed.

(** X21.  References are accepted by value and joined by spelling.  A
    donation whose [campaign_id] designates a campaign without being the
    string that [str] gives for its [_id] (upper-case digits, say) is
    recorded and raises the total of the campaign, yet the leaderboard is
    what it was before, and the ledger row of the donation shows neither
    campaign nor NGO. *)
Theorem misspelt_reference_is_not_joined format_x now_update now_issue payload s camp :
  referenced_campaign (DonationIn.campaign_id payload) s = Some camp ->
  dict_by_id (campaign s) !! DonationIn.campaign_id payload = None ->
  1 <= DonationIn.amount_inr payload ->
  let s' := snd (create_donation format_x now_update now_issue payload s) in
  (exists camp',
      referenced_campaign (DonationIn.campaign_id payload) s' = Some camp' /\
      Campaign.raised_inr (fields camp')
      = Campaign.raised_inr (fields camp) + DonationIn.amount_inr payload) /\
  fst (leaderboard s') = fst (leaderboard s) /\
  (forall out,
      fst (create_donation format_x now_update now_issue payload s) = Return out ->
      exists row,
        fst (list_transactions 1 s') = Return [row] /\
        row_donation_id row = out_donation_id out /\
        row_amount_inr row = Some (DonationIn.amount_inr payload) /\
        row_campaign_title row = None /\
        row_ngo_name row = None).
Proof.
  intros Href Hkey Hamount. simpl.
  rewrite create_donation_unfold. unfold referenced_campaign in *.
  destruct (ObjectId_of (DonationIn.campaign_id payload)) as [oid|];
    [|discriminate].
  rewrite Href. apply Z.leb_le in Hamount. rewrite Hamount.
  set (u := inc_raised_set_updated (DonationIn.amount_inr payload) now_update).
  set (d := mkDoc (next_oid s)
              (Donation.mk (DonationIn.campaign_id payload)
                           (DonationIn.donor_name payload)
                           (DonationIn.amount_inr payload)
                           (DonationIn.payment_method payload)) None).
  assert (forall s',
            ngo s' = ngo s -> campaign s' = update_first oid u (campaign s) ->
            donation s' = donation s ++ [d] ->
            fst (leaderboard s') = fst (leaderboard s)) as Hboard.
  { intros s' Hn Hc Hd. rewrite !leaderboard_unfold. simpl. rewrite Hn.
    do 2 f_equal. unfold leaderboard_ranking. f_equal.
    rewrite !ngo_points_of_accumulate. f_equal.
    unfold award_events. rewrite Hc, Hd, aggregate_group_snoc.
    rewrite omap_resolve_accum
      by (by apply dict_by_id_update_first_None).
    symmetry. apply omap_resolve_ext.
    apply (dict_by_id_related (fun c => Campaign.ngo_id (fields c))).
    by apply update_first_related. }
  assert (find_by_id oid (update_first oid u (campaign s)) = Some (u camp))
    as Hfind by (by apply find_by_id_update_first).
  destruct (format_x (next_oid s + 1)%N) as [hex|]; cbn [fst snd].
  - split; [|split].
    + exists (u camp). split; [exact Hfind | apply inc_raised_value].
    + by apply Hboard.
    + intros out [= <-]. rewrite filter_no_filter.
      unfold after_donation, after_increment.
      cbn [transaction donation campaign ngo].
      rewrite slice_from_last. simpl map.
      eexists. split; [reflexivity|]. unfold ledger_row.
      cbn [fields _id Transaction.donation_id row_donation_id row_amount_inr
           row_campaign_title row_ngo_name out_donation_id].
      rewrite dict_by_id_snoc. cbn [_id]. rewrite lookup_insert_eq.
      cbn [mbind option_bind fields Donation.campaign_id fmap option_fmap
           option_map Donation.amount_inr compose].
      unfold get_if_key.
      destruct (String.eqb (DonationIn.campaign_id payload) "");
        [by repeat split|].
      rewrite dict_by_id_update_first_None by done.
      by repeat split.
  - split; [|split].
    + exists (u camp). split; [exact Hfind | apply inc_raised_value].
    + by apply Hboard.
    + intros out [=].
Qed.

Lemma misspelt_reference_is_not_joined_witness :
  referenced_campaign "00000000000000000000000A" lettered
  = Some (mkDoc 10%N
            (Campaign.mk "Air: Schoolyard Saplings" aranya_id "Air" 100000 0
                         None None None None) None) /\
  dict_by_id (campaign lettered) !! "00000000000000000000000A" = None /\
  1 <= 500 /\
  (exists camp',
      referenced_campaign "00000000000000000000000A"
        (snd (create_donation bson_format 20 21
                (donate "00000000000000000000000A" 500) lettered))
      = Some camp' /\
      Campaign.raised_inr (fields camp') = 0 + 500) /\
  fst (leaderboard
         (snd (create_donation bson_format 20 21
                 (donate "00000000000000000000000A" 500) lettered)))
  = fst (leaderboard lettered).
Proof.
  split; [vm_compute; reflexivity|]. split; [vm_compute; reflexivity|].
  split; [lia|].
  pose proof (misspelt_reference_is_not_joined bson_format 20 21
                (donate "00000000000000000000000A" 500) lettered
                (mkDoc 10%N
                   (Campaign.mk "Air: Schoolyard Saplings" aranya_id "Air"
                                100000 0 None None None None) None)
                ltac:(vm_compute; reflexivity) ltac:(vm_compute; reflexivity)
                ltac:(simpl; lia)) as [H1 [H2 _]].
  split; [exact H1 | exact H2].
Defined.

(** ** What the code never writes *)

Lemma serve_bson_keeps_settlements r s :
  transaction (snd (serve bson_format r s)) = transaction s /\
  receipt (snd (serve bson_format r s)) = receipt s.
Proof.
  destruct (is_GET r) eqn:Hget.
  { by destruct (GET_run bson_format r s Hget) as [body ->]. }
  destruct r; try discriminate; unfold serve.
  - rewrite fmap_M_store, seed_unfold. simpl. by destruct (ngo s).
  - by rewrite fmap_M_store, create_ngo_unfold.
  - destruct (Campaign.validate body); [|done].
    rewrite fmap_M_store, create_campaign_unfold.
    by destruct (referenced_ngo (Campaign.ngo_id body) s).
  - rewrite fmap_M_store.
    by destruct (donation_never_settles now_update now_issue body s)
      as (_ & ? & ?).
Qed.

(** X20.  With bson's formatting of the hash, a store the API can bring
    about holds no transaction and no receipt, however many donations it
    holds, and its ledger is empty for every limit: the workflow never
    gets past line 166. *)
Theorem reachable_store_has_no_settlement s :
  reachable bson_format s ->
  transaction s = [] /\
  receipt s = [] /\
  forall limit, list_transactions limit s = (Return [], s).
Proof.
  intros Hs.
  assert (transaction s = [] /\ receipt s = []) as [Ht Hr].
  { induction Hs as [|r s Hs [IHt IHr]]; [done|].
    destruct (serve_bson_keeps_settlements r s) as [-> ->]. done. }
  split; [exact Ht|]. split; [exact Hr|].
  intros limit. rewrite list_transactions_unfold, Ht.
  by destruct limit.
Qed.

Lemma reachable_store_has_no_settlement_witness :
  reachable bson_format two_gifts /\
  length (donation two_gifts) = 2%nat /\
  transaction two_gifts = [] /\
  receipt two_gifts = [] /\
  forall limit, list_transactions limit two_gifts = (Return [], two_gifts).
Proof.
  split; [exact two_gifts_reachable|]. split; [reflexivity|].
  apply (reachable_store_has_no_settlement two_gifts).
  exact two_gifts_reachable.
Defined.
